(** * Carbon footprint tracker: the calculator of [app.js]

    A shallow embedding of the calculation path of [src/app.js]:
    [getConfig], [calculateFootprint] (with its inner [safeParseFloat]),
    [getPreviousCalculation], [displayCalculationResult] and
    [saveCalculation].

    JavaScript numbers are IEEE-754 binary64 values; they are modelled by
    Rocq's primitive floats, which are the same format with the same
    round-to-nearest-even operations.  The program text is embedded once,
    over an interface of the arithmetic it uses ([Arith]), and read at two
    instances: [binary64], the arithmetic the program runs on, and [exact],
    the rationals, which gives the value of each formula before rounding.

    What lies outside the file is a parameter of the model: the form is the
    map from element ids to the numbers parseFloat reads there, the log is
    the list api.getCarbonLogs() returns, whose entries carry dates that
    new Date can read, and the clock is the [now] of the call.  Texts are
    kept as the choice of sentence and the numbers printed in it; the
    rounding of toFixed is not modelled.  A CONFIG that is defined but null
    behaves as one without emissionFactors. *)

From Stdlib Require Import ZArith QArith Qabs Qminmax Floats Uint63.
From Stdlib Require Import Bool List String Lia Permutation Sorted.
From Stdlib Require Import Lqa ZifyBool Qpower.
Import ListNotations.

(* Decimal literals such as 0.41 denote the nearest binary64 value. *)
Set Warnings "-inexact-float".

Set Implicit Arguments.

(** ** The arithmetic of the program *)

Class Arith (num : Type) : Type := {
  lit : Q -> num;                 (* a numeric literal of the program text *)
  num_add : num -> num -> num;
  num_sub : num -> num -> num;
  num_mul : num -> num -> num;
  num_div : num -> num -> num;
  Math_abs : num -> num;
  Math_min : num -> num -> num;
  Math_max : num -> num -> num;
  num_ltb : num -> num -> bool;   (* a < b *)
  num_eqb : num -> num -> bool;   (* a === b, both numbers *)
  isNaN : num -> bool
}.

Arguments lit {num _} q%_Q.

Declare Scope js_scope.
Delimit Scope js_scope with js.
Notation "a + b" := (num_add a b) : js_scope.
Notation "a - b" := (num_sub a b) : js_scope.
Notation "a * b" := (num_mul a b) : js_scope.
Notation "a / b" := (num_div a b) : js_scope.
Notation "a <? b" := (num_ltb a b) : js_scope.
Notation "a >? b" := (num_ltb b a) : js_scope.
Notation "a =? b" := (num_eqb a b) : js_scope.

(** *** binary64 *)

Module Binary64.

Definition of_Z (z : Z) : float :=
  match z with
  | Z0 => 0%float
  | Zpos _ => PrimFloat.of_uint63 (Uint63.of_Z z)
  | Zneg p => (- PrimFloat.of_uint63 (Uint63.of_Z (Zpos p)))%float
  end.

(* A decimal literal n/d is read as the binary64 value nearest to it: the
   correctly rounded quotient of two integers that binary64 holds exactly. *)
Definition literal (q : Q) : float :=
  (of_Z (Qnum q) / of_Z (Zpos (Qden q)))%float.

(* Math.max: NaN if either argument is NaN; +0 is larger than -0. *)
Definition max (a b : float) : float :=
  if is_nan a || is_nan b then nan
  else if (a <? b)%float then b
  else if (b <? a)%float then a
  else if get_sign a then b else a.

(* Math.min: NaN if either argument is NaN; -0 is smaller than +0. *)
Definition min (a b : float) : float :=
  if is_nan a || is_nan b then nan
  else if (a <? b)%float then a
  else if (b <? a)%float then b
  else if get_sign a then a else b.

End Binary64.

#[export] Instance binary64 : Arith float := {
  lit := Binary64.literal;
  num_add := PrimFloat.add;
  num_sub := PrimFloat.sub;
  num_mul := PrimFloat.mul;
  num_div := PrimFloat.div;
  Math_abs := PrimFloat.abs;
  Math_min := Binary64.min;
  Math_max := Binary64.max;
  num_ltb := PrimFloat.ltb;
  num_eqb := PrimFloat.eqb;
  isNaN := PrimFloat.is_nan
}.

(** *** exact rationals *)

#[export] Instance exact : Arith Q := {
  lit := fun q => q;
  num_add := Qplus;
  num_sub := Qminus;
  num_mul := Qmult;
  num_div := Qdiv;
  Math_abs := Qabs;
  Math_min := Qmin;
  Math_max := Qmax;
  num_ltb := fun a b => negb (Qle_bool b a);
  num_eqb := Qeq_bool;
  isNaN := fun _ => false
}.

(** ** Data *)

(* CONFIG.emissionFactors: a missing group is [None]; a missing rate inside
   a group reads as undefined, which arithmetic turns into NaN. *)
Module EF.
Record Transport (num : Type) := { car : num; flightShort : num; publicTransport : num }.
Record Energy (num : Type) := { electricity : num; gas : num }.
Record Food (num : Type) := { meatMeal : num; dairyServing : num }.
Record Waste (num : Type) := { wasteBag : num; recyclingOffset : num }.
Record Shopping (num : Type) := { general : num; electronics : num }.
Record t (num : Type) := {
  transport : option (Transport num);
  energy : option (Energy num);
  food : option (Food num);
  waste : option (Waste num);
  shopping : option (Shopping num)
}.
End EF.

Record Conversions (num : Type) := { kgToTonnes : num; treesPerTonne : num }.

Record Config (num : Type) := {
  emissionFactors : option (EF.t num);
  conversions : option (Conversions num)
}.

(* The global CONFIG and window.CONFIG; [None] when not defined. *)
Record Globals (num : Type) := {
  CONFIG : option (Config num);
  windowCONFIG : option (Config num)
}.

Module Breakdown.
Record t (num : Type) := {
  transport : num; energy : num; food : num; waste : num; shopping : num
}.
End Breakdown.

(* appState.currentCalculation; the catch branch stores no breakdown. *)
Module Calc.
Record t (num : Type) := {
  co2e : num;
  category : string;
  timestamp : Z;
  breakdown : option (Breakdown.t num)
}.
End Calc.

Record AppState (num : Type) := { currentCalculation : option (Calc.t num) }.

(* An entry of api.getCarbonLogs().  [timestamp] and [date] hold the instant
   (milliseconds) that new Date(...) reads from the field, [None] when the
   field is absent; an absent [co2e] is NaN. *)
Module Log.
Record t (num : Type) := {
  id : Z;
  category : string;
  co2e : num;
  timestamp : option Z;
  date : option Z
}.
End Log.

(* The inputs of the calculator: for an element id, [None] when
   document.getElementById finds nothing, otherwise parseFloat of the
   element's value (NaN for text that is not a number). *)
Definition Form (num : Type) := string -> option num.

(* Which of the result elements the page has. *)
Record Page := {
  calculationResult : bool;
  resultValue : bool;
  resultDescription : bool
}.

(* What displayCalculationResult writes into #resultDescription.  The
   numbers are the ones the text prints (with toFixed). *)
Inductive Band := BelowAverage | NearAverage | AboveAverage.

Inductive Comparison (num : Type) :=
| NoComparison
| Less (difference percent : num)     (* "... less (...% reduction) than your last calculation!" *)
| More (difference percent : num)     (* "... more (...% increase) than your last calculation." *)
| Matches.                            (* "This matches your previous calculation." *)
Arguments NoComparison {num}.
Arguments Matches {num}.

Inductive Description (num : Type) :=
| EnterValues                         (* "Enter values in any category above ..." *)
| Assessment (band : Band) (comparison : Comparison num).
Arguments EnterValues {num}.

Inductive Effect (num : Type) :=
| AlertConfig                         (* alert('Configuration not loaded. ...') *)
| AlertFootprint (tonnes : num)       (* alert(`Your annual carbon footprint is ...`) *)
| ShowResult (value : num) (description : option (Description num)).
Arguments AlertConfig {num}.

(* The notes of a saved calculation: the footprint, and the change from the
   previous calculation when one is reported. *)
Inductive NoteChange (num : Type) :=
| NoChange
| Reduction (difference : num)
| Increase (difference : num).
Arguments NoChange {num}.

Record Notes (num : Type) := { calculated : num; change : NoteChange num }.

(* logData, the record saveCalculation hands to api.saveCarbonLog. *)
Module LogData.
Record t (num : Type) := {
  category : string;
  co2e : num;
  value : num;
  notes : Notes num;
  timestamp : Z
}.
End LogData.

(* What a call of calculateFootprint leaves behind. *)
Record Outcome (num : Type) := {
  returned : bool;
  state : AppState num;
  effects : list (Effect num)
}.

(** ** Exceptions of the try block *)

Inductive result (A : Type) := Ok (a : A) | Thrown.
Arguments Thrown {A}.

Definition bind {A B : Type} (c : result A) (k : A -> result B) : result B :=
  match c with
  | Ok a => k a
  | Thrown => Thrown
  end.

Notation "x <- c ;; k" := (bind c (fun x => k))
  (at level 61, c at next level, right associativity).

(* Reading a property of [o]: a TypeError when [o] is undefined. *)
Definition defined {A : Type} (o : option A) : result A :=
  match o with
  | Some a => Ok a
  | None => Thrown
  end.

(** ** The program *)

Section Program.

Context {num : Type} {A : Arith num}.
Local Open Scope js_scope.

Definition fallbackConfig : Config num := {|
  emissionFactors := Some {|
    EF.transport := Some {| EF.car := lit 0.41; EF.flightShort := lit 0.158;
                            EF.publicTransport := lit 0.053 |};
    EF.energy := Some {| EF.electricity := lit 0.233; EF.gas := lit 5.3 |};
    EF.food := Some {| EF.meatMeal := lit 7.19; EF.dairyServing := lit 2.5 |};
    EF.waste := Some {| EF.wasteBag := lit 2.5; EF.recyclingOffset := lit (-1.2) |};
    EF.shopping := Some {| EF.general := lit 0.005; EF.electronics := lit 50 |}
  |};
  conversions := Some {| kgToTonnes := lit 0.001; treesPerTonne := lit 20 |}
|}.

Definition getConfig (g : Globals num) : Config num :=
  match CONFIG g with
  | Some c => c
  | None =>
      match windowCONFIG g with
      | Some c => c
      | None => fallbackConfig
      end
  end.

Definition safeParseFloat (document : Form num) (elementId : string) : num :=
  match document elementId with
  | None => lit 0
  | Some value => if isNaN value || (value <? lit 0) then lit 0 else value
  end.

(* The body of the try block up to the assignment of
   appState.currentCalculation: the total in tonnes and the breakdown. *)
Definition footprint (CONFIG_TO_USE : Config num) (factors : EF.t num)
    (document : Form num) : result (num * Breakdown.t num) :=
  let totalCo2e := lit 0 in
  (* Transport *)
  let carMiles := safeParseFloat document "car-miles" in
  let flights := safeParseFloat document "flights" in
  let publicTransport := safeParseFloat document "public-transport" in
  transport <- defined (EF.transport factors) ;;
  let transportCarCo2e := carMiles * EF.car transport * lit 12 in
  let transportFlightsCo2e := flights * lit 1000 * EF.flightShort transport in
  let transportPublicCo2e := publicTransport * EF.publicTransport transport * lit 12 in
  let totalCo2e := totalCo2e + transportCarCo2e in
  let totalCo2e := totalCo2e + transportFlightsCo2e in
  let totalCo2e := totalCo2e + transportPublicCo2e in
  (* Energy *)
  let electricity := safeParseFloat document "electricity" in
  let gas := safeParseFloat document "gas" in
  let renewablePercent :=
    Math_min (lit 100) (Math_max (lit 0) (safeParseFloat document "renewable-percent")) in
  energy <- defined (EF.energy factors) ;;
  let electricityEmissions :=
    electricity * EF.electricity energy * (lit 1 - renewablePercent / lit 100) * lit 12 in
  let gasCo2e := gas * EF.gas energy * lit 12 in
  let totalCo2e := totalCo2e + electricityEmissions in
  let totalCo2e := totalCo2e + gasCo2e in
  (* Food *)
  let meatMeals := safeParseFloat document "meat-meals" in
  let dairyProducts := safeParseFloat document "dairy-products" in
  let localFoodPercent :=
    Math_min (lit 100) (Math_max (lit 0) (safeParseFloat document "local-food")) in
  let meatReduction := Math_max (lit 0.8) (lit 1 - (localFoodPercent / lit 100) * lit 0.2) in
  food <- defined (EF.food factors) ;;
  let foodMeatCo2e := meatMeals * EF.meatMeal food * lit 52 * meatReduction in
  let foodDairyCo2e := dairyProducts * EF.dairyServing food * lit 52 in
  let totalCo2e := totalCo2e + foodMeatCo2e in
  let totalCo2e := totalCo2e + foodDairyCo2e in
  (* Waste *)
  let wasteBags := safeParseFloat document "waste-bags" in
  let recyclingPercent :=
    Math_min (lit 100) (Math_max (lit 0) (safeParseFloat document "recycling-percent")) in
  waste <- defined (EF.waste factors) ;;
  let wasteEmissions := wasteBags * EF.wasteBag waste * lit 52 in
  let recyclingOffset :=
    wasteEmissions * (recyclingPercent / lit 100) * Math_abs (EF.recyclingOffset waste) in
  let wasteCo2e := wasteEmissions - recyclingOffset in
  let totalCo2e := totalCo2e + wasteCo2e in
  (* Shopping *)
  let shoppingSpend := safeParseFloat document "shopping-spend" in
  let electronics := safeParseFloat document "electronics" in
  shopping <- defined (EF.shopping factors) ;;
  let shoppingCo2e := shoppingSpend * EF.general shopping * lit 12 in
  let electronicsCo2e := electronics * EF.electronics shopping in
  let totalCo2e := totalCo2e + shoppingCo2e in
  let totalCo2e := totalCo2e + electronicsCo2e in
  (* Convert to tonnes *)
  conversions <- defined (conversions CONFIG_TO_USE) ;;
  let totalTonnes := totalCo2e * kgToTonnes conversions in
  Ok (totalTonnes,
      {| Breakdown.transport := transportCarCo2e + transportFlightsCo2e + transportPublicCo2e;
         Breakdown.energy := electricityEmissions + gasCo2e;
         Breakdown.food := foodMeatCo2e + foodDairyCo2e;
         Breakdown.waste := wasteCo2e;
         Breakdown.shopping := shoppingCo2e + electronicsCo2e |}).

(* logs.sort(compare): the sort is stable, and the comparator used here
   orders the entries consistently, so the result is the one of inserting
   each entry before the first entry it does not come after. *)
Fixpoint insert (compare : Log.t num -> Log.t num -> Z) (a : Log.t num)
    (sorted : list (Log.t num)) : list (Log.t num) :=
  match sorted with
  | [] => [a]
  | b :: rest =>
      if (compare a b <=? 0)%Z then a :: sorted
      else b :: insert compare a rest
  end.

Fixpoint sort (compare : Log.t num -> Log.t num -> Z) (logs : list (Log.t num))
    : list (Log.t num) :=
  match logs with
  | [] => []
  | a :: rest => insert compare a (sort compare rest)
  end.

(* new Date(a.timestamp || a.date || 0), as milliseconds *)
Definition dateOf (a : Log.t num) : Z :=
  match Log.timestamp a with
  | Some t => t
  | None =>
      match Log.date a with
      | Some d => d
      | None => 0%Z
      end
  end.

Definition getPreviousCalculation (logs : list (Log.t num)) : option (Log.t num) :=
  match logs with
  | [] => None
  | _ =>
      let sortedLogs :=
        sort (fun a b => let dateA := dateOf a in
                         let dateB := dateOf b in
                         (dateB - dateA)%Z) logs in
      hd_error sortedLogs
  end.

(* The truth value of a number: false for NaN, +0 and -0. *)
Definition truthy (x : num) : bool := negb (isNaN x || (x =? lit 0)).

(* parseFloat of a number: it is printed and read back, which gives the
   number itself, except that -0 prints as "0". *)
Definition parseFloat (x : num) : num := if x =? lit 0 then lit 0 else x.

(* The locals [difference] and [percentChange] of displayCalculationResult,
   when the comparison with the previous calculation is made. *)
Definition comparison (displayValue : num) (previousCalculation : option (Log.t num))
    : option (num * num) :=
  match previousCalculation with
  | Some previous =>
      if truthy (Log.co2e previous) then
        let previousValue :=
          let parsed := parseFloat (Log.co2e previous) in
          if truthy parsed then parsed else lit 0 in
        let difference := displayValue - previousValue in
        let percentChange :=
          if previousValue >? lit 0 then (difference / previousValue) * lit 100
          else lit 0 in
        Some (difference, percentChange)
      else None
  | None => None
  end.

Definition displayCalculationResult (page : Page) (tonnes : num)
    (previousCalculation : option (Log.t num)) : Effect num :=
  if negb (calculationResult page) || negb (resultValue page) then
    AlertFootprint tonnes
  else
    let displayValue := if isNaN tonnes || (tonnes <? lit 0) then lit 0 else tonnes in
    ShowResult displayValue
      (if resultDescription page then
         Some
           (if displayValue =? lit 0 then EnterValues
            else
              let band :=
                if displayValue <? lit 4 then BelowAverage
                else if displayValue <? lit 8 then NearAverage
                else AboveAverage in
              Assessment band
                match comparison displayValue previousCalculation with
                | Some (difference, percentChange) =>
                    if Math_abs difference >? lit 0.01 then
                      if difference <? lit 0
                      then Less (Math_abs difference) (Math_abs percentChange)
                      else More difference percentChange
                    else Matches
                | None => NoComparison
                end)
       else None).

Definition calculateFootprint (g : Globals num) (page : Page) (document : Form num)
    (logs : list (Log.t num)) (now : Z) (appState : AppState num) : Outcome num :=
  let CONFIG_TO_USE := getConfig g in
  match emissionFactors CONFIG_TO_USE with
  | None =>
      {| returned := false; state := appState; effects := [AlertConfig] |}
  | Some factors =>
      match footprint CONFIG_TO_USE factors document with
      | Ok (totalTonnes, breakdown) =>
          let appState := {| currentCalculation := Some {|
               Calc.co2e := totalTonnes;
               Calc.category := "mixed";
               Calc.timestamp := now;
               Calc.breakdown := Some breakdown |} |} in
          let previousCalculation := getPreviousCalculation logs in
          {| returned := true; state := appState;
             effects := [displayCalculationResult page totalTonnes previousCalculation] |}
      | Thrown =>
          (* catch: "Don't throw error, instead show a default result of 0" *)
          let totalTonnes := lit 0 in
          let appState := {| currentCalculation := Some {|
               Calc.co2e := totalTonnes;
               Calc.category := "mixed";
               Calc.timestamp := now;
               Calc.breakdown := None |} |} in
          {| returned := false; state := appState;
             effects := [displayCalculationResult page totalTonnes None] |}
      end
  end.

(* saveCalculation up to the call of api.saveCarbonLog: the record it
   saves, or [None] when there is no calculation to save. *)
Definition saveCalculation (appState : AppState num) (logs : list (Log.t num))
    : option (LogData.t num) :=
  match currentCalculation appState with
  | None => None
  | Some current =>
      let previousCalculation := getPreviousCalculation logs in
      let change :=
        match previousCalculation with
        | Some previous =>
            if truthy (Log.co2e previous) then
              let previousValue :=
                let parsed := parseFloat (Log.co2e previous) in
                if truthy parsed then parsed else lit 0 in
              let difference := Calc.co2e current - previousValue in
              if Math_abs difference >? lit 0.01 then
                if difference <? lit 0 then Reduction (Math_abs difference)
                else Increase difference
              else NoChange
            else NoChange
        | None => NoChange
        end in
      Some {| LogData.category :=
                match Calc.category current with
                | EmptyString => "mixed"%string
                | category => category
                end;
              LogData.co2e := Calc.co2e current;
              LogData.value := Calc.co2e current;
              LogData.notes := {| calculated := Calc.co2e current; change := change |};
              LogData.timestamp := Calc.timestamp current |}
  end.

End Program.

(** ** The dashboard and its charts *)

(* A point of the trend: the month (getMonth of it, printed as its short
   name) and the tonnes recorded in it. *)
Module Point.
Record t (num : Type) := { month : Z; co2e : num }.
End Point.

(* What drawTrendChart puts on the canvas: the placeholder text, or the
   points of the line, in the order they are joined. *)
Inductive Trend (num : Type) :=
| NoTrendData
| TrendLine (points : list (num * num)).
Arguments NoTrendData {num}.

(* A slice of the donut: the angles of its outer arc and its fill. *)
Module Slice.
Record t (num : Type) := { from : num; to : num; fill : option string }.
End Slice.

Inductive Donut (num : Type) :=
| NoCategoryData                      (* 'No data available' *)
| NothingDrawn                        (* total === 0 *)
| Slices (slices : list (Slice.t num)).
Arguments NoCategoryData {num}.
Arguments NothingDrawn {num}.

(* The canvas of a chart. *)
Record Canvas (num : Type) := { width : num; height : num }.

(* localStorage 'currentGoal', parsed. *)
Record Goal (num : Type) := { percent : num; deadline : string }.

(* What updateDashboard writes after the monthly figure. *)
Record Kpis (num : Type) := {
  treesEquivalent : num;
  weeklyChange : num;
  weeklyPositive : bool;               (* 'kpi-change positive' / 'negative' *)
  goalProgress : option num
}.

Section Dashboard.

Context {num : Type} {A : Arith num}.
Local Open Scope js_scope.

(* The calendar of Date in local time: getFullYear and getMonth of an
   instant, and the instant setDate(getDate() - 7) moves it to. *)
Variables getFullYear getMonth weekBefore : Z -> Z.

Variable Math_ceil : num -> num.

(* x || 0 *)
Definition orZero (x : num) : num := if truthy x then x else lit 0.

(* a >= b *)
Definition geb (a b : num) : bool :=
  negb (isNaN a || isNaN b) && negb (a <? b).

(* new Date(log.timestamp || log.date): [None] is an invalid date. *)
Definition logDate (log : Log.t num) : option Z :=
  match Log.timestamp log with
  | Some t => Some t
  | None => Log.date log
  end.

Definition sameMonth (year month : Z) (log : Log.t num) : bool :=
  match logDate log with
  | Some d => (getMonth d =? month)%Z && (getFullYear d =? year)%Z
  | None => false
  end.

(* The year new Date(year, ...) takes for its first argument: 0 to 99 stand
   for 1900 to 1999. *)
Definition fullYear (year : Z) : Z :=
  if ((0 <=? year) && (year <=? 99))%Z then (1900 + year)%Z else year.

(* The months run from months - 1 back to 0 before the month of [now];
   new Date(year, month - i, 1) carries a month outside 0..11 into the year. *)
Definition generateMonthlyData (logs : list (Log.t num)) (months : nat) (now : Z)
    : list (Point.t num) :=
  map (fun i : nat =>
         let k := (getMonth now - Z.of_nat i)%Z in
         let year := (fullYear (getFullYear now) + k / 12)%Z in
         let month := (k mod 12)%Z in
         let monthLogs := filter (sameMonth year month) logs in
         let monthlyCo2e :=
           fold_left (fun sum log => sum + orZero (Log.co2e log)) monthLogs (lit 0) in
         {| Point.month := month; Point.co2e := orZero monthlyCo2e |})
      (rev (seq 0 months)).

(* Math.max(...values, 1) *)
Definition maxWith1 (values : list num) : num :=
  fold_right Math_max (lit 1) values.

Definition drawTrendChart (canvas : Canvas num) (logs : list (Log.t num)) (now : Z)
    : Trend num :=
  match logs with
  | [] => NoTrendData
  | _ =>
      let padding := lit 40 in
      let chartWidth := width canvas - lit 2 * padding in
      let chartHeight := height canvas - lit 2 * padding in
      let months := 12%nat in
      let data := generateMonthlyData logs months now in
      let maxValue := maxWith1 (map (@Point.co2e num) data) in
      TrendLine
        (map (fun '(index, point) =>
                let x := padding
                         + (lit (inject_Z (Z.of_nat index)) / (lit 12 - lit 1)) * chartWidth in
                let y := height canvas - padding
                         - (Point.co2e point / maxValue) * chartHeight in
                (x, y))
             (combine (seq 0 (List.length data)) data))
  end.

(* The filter of the month that lies [i] months before the month of [now]. *)
Definition monthBefore (now : Z) (i : nat) (log : Log.t num) : bool :=
  let k := (getMonth now - Z.of_nat i)%Z in
  sameMonth (fullYear (getFullYear now) + k / 12) (k mod 12) log.

(* The entry is dated in one of the [months] months that end with [now]. *)
Definition inWindow (months : nat) (now : Z) (log : Log.t num) : bool :=
  existsb (fun i => monthBefore now i log) (seq 0 months).

(* log.category || 'other' *)
Definition categoryOf (log : Log.t num) : string :=
  match Log.category log with
  | EmptyString => "other"%string
  | category => category
  end.

(* The names an object literal inherits from Object.prototype. *)
Definition inheritedKeys : list string :=
  ["constructor"; "hasOwnProperty"; "isPrototypeOf"; "propertyIsEnumerable";
   "toLocaleString"; "toString"; "valueOf"; "__proto__"; "__defineGetter__";
   "__defineSetter__"; "__lookupGetter__"; "__lookupSetter__"]%string.

(* A key that an object literal holds as its own after it is written, in the
   order of writing: it is not inherited and, as it does not start with a
   digit, it is no integer index (these come first in Object.keys). *)
Definition plainKey (key : string) : bool :=
  negb (existsb (String.eqb key) inheritedKeys)
  && match key with
     | String c _ =>
         negb ((48 <=? Ascii.nat_of_ascii c)%nat && (Ascii.nat_of_ascii c <=? 57)%nat)
     | EmptyString => true
     end.

(* categoryData[category] = (categoryData[category] || 0) + log.co2e, for
   plain keys: the object keeps them in the order in which they were first
   written. *)
Fixpoint addTo (categoryData : list (string * num)) (category : string) (co2e : num)
    : list (string * num) :=
  match categoryData with
  | [] => [(category, lit 0 + co2e)]
  | (key, value) :: rest =>
      if String.eqb key category then (key, orZero value + co2e) :: rest
      else (key, value) :: addTo rest category co2e
  end.

Definition groupByCategory (logs : list (Log.t num)) : list (string * num) :=
  fold_left (fun categoryData log =>
               let category := categoryOf log in
               addTo categoryData category (Log.co2e log))
            logs [].

(* The slices, from the angle reached so far. *)
Fixpoint slicesFrom (PI : num) (colors : list string) (total : num)
    (index : nat) (currentAngle : num) (values : list num) : list (Slice.t num) :=
  match values with
  | [] => []
  | value :: rest =>
      let sliceAngle := (value / total) * lit 2 * PI in
      {| Slice.from := currentAngle;
         Slice.to := currentAngle + sliceAngle;
         Slice.fill := nth_error colors (index mod List.length colors)%nat |}
      :: slicesFrom PI colors total (S index) (currentAngle + sliceAngle) rest
  end.

(* [PI] is Math.PI and [colors] is getConfig().ui.chartColors, of a
   configuration that has them. *)
Definition drawCategoryChart (PI : num) (colors : list string)
    (logs : list (Log.t num)) : Donut num :=
  match logs with
  | [] => NoCategoryData
  | _ =>
      let categoryData := groupByCategory logs in
      let values := map snd categoryData in
      let total := fold_left num_add values (lit 0) in
      if total =? lit 0 then NothingDrawn
      else
        let currentAngle := lit (-1) * PI / lit 2 in   (* -Math.PI / 2 *)
        Slices (slicesFrom PI colors total 0 currentAngle values)
  end.

(* The sum of parseFloat(log.co2e) || 0 over the entries. *)
Definition sumCo2e (logs : list (Log.t num)) : num :=
  fold_left (fun sum log => sum + orZero (parseFloat (Log.co2e log))) logs (lit 0).

Definition thisMonthLogs (logs : list (Log.t num)) (now : Z) : list (Log.t num) :=
  filter (fun log =>
            match Log.timestamp log, Log.date log with
            | None, None => false
            | _, _ =>
                match logDate log with
                | Some d => (getMonth d =? getMonth now)%Z
                            && (getFullYear d =? getFullYear now)%Z
                | None => false
                end
            end) logs.

Definition lastWeekLogs (logs : list (Log.t num)) (now : Z) : list (Log.t num) :=
  let lastWeek := weekBefore now in
  filter (fun log =>
            match Log.timestamp log, Log.date log with
            | None, None => false
            | _, _ =>
                match logDate log with
                | Some d => (lastWeek <=? d)%Z && (d <? now)%Z
                | None => false
                end
            end) logs.

(* updateDashboard up to the redrawing of the charts: the number printed
   into #monthlyCo2, then the other figures; reading treesPerTonne throws
   when the conversions are missing. *)
Definition updateDashboard (g : Globals num) (logs : list (Log.t num)) (now : Z)
    (goal : option (Goal num)) : num * result (Kpis num) :=
  let totalCo2e := sumCo2e logs in
  let monthlyCo2e := sumCo2e (thisMonthLogs logs now) in
  let monthlyCo2 := if monthlyCo2e >? lit 0 then monthlyCo2e else totalCo2e in
  (monthlyCo2,
   let displayCo2e := if monthlyCo2e >? lit 0 then monthlyCo2e else totalCo2e in
   conversions <- defined (conversions (getConfig g)) ;;
   let treesEquivalent := Math_ceil (displayCo2e * treesPerTonne conversions) in
   let lastWeekCo2e := sumCo2e (lastWeekLogs logs now) in
   let weeklyChange :=
     if monthlyCo2e >? lit 0 then (lastWeekCo2e / monthlyCo2e) * lit 100
     else lit 0 in
   Ok {| treesEquivalent := treesEquivalent;
         weeklyChange := weeklyChange;
         weeklyPositive := geb weeklyChange (lit 0);
         goalProgress :=
           match goal with
           | Some goal =>
               Some (Math_min (lit 100)
                       ((monthlyCo2e / (percent goal / lit 100)) * lit 100))
           | None => None
           end |}).

(* The entries of loadDemoData; [first], [second] and [third] are the three
   readings of Date.now(), and the ids 'demo-1', 'demo-2', 'demo-3' are
   written 1, 2, 3. *)
Definition demoLogs (first second third : Z) : list (Log.t num) :=
  [ {| Log.id := 1; Log.category := "transport"; Log.co2e := lit 2.5;
       Log.timestamp := Some (first - 30 * 24 * 60 * 60 * 1000)%Z;
       Log.date := None |};
    {| Log.id := 2; Log.category := "energy"; Log.co2e := lit 1.8;
       Log.timestamp := Some (second - 20 * 24 * 60 * 60 * 1000)%Z;
       Log.date := None |};
    {| Log.id := 3; Log.category := "food"; Log.co2e := lit 1.2;
       Log.timestamp := Some (third - 10 * 24 * 60 * 60 * 1000)%Z;
       Log.date := None |} ].

(* loadDemoData up to the call of updateDashboard: the entries it stores
   under 'carbonLogs', none when it stores nothing; [carbonLogs] is what
   api.getCarbonLogs() returns. *)
Definition loadDemoData (carbonLogs : list (Log.t num)) (first second third : Z)
    : option (list (Log.t num)) :=
  match carbonLogs with
  | [] => Some (demoLogs first second third)
  | _ => None
  end.

End Dashboard.

(** ** Vocabulary of the statements *)

Section Vocabulary.

Context {num : Type} {A : Arith num}.
Local Open Scope js_scope.

(* The form with the value of one element replaced. *)
Definition setValue (document : Form num) (elementId : string) (value : num)
    : Form num :=
  fun id => if String.eqb id elementId then Some value else document id.

(* Every input element present and holding 0. *)
Definition allZero : Form num := fun _ => Some (lit 0).

(* A configuration with every factor group and the conversions present. *)
Definition complete (transport : EF.Transport num) (energy : EF.Energy num)
    (food : EF.Food num) (waste : EF.Waste num) (shopping : EF.Shopping num)
    (conv : Conversions num) : Config num :=
  {| emissionFactors := Some {| EF.transport := Some transport;
                                EF.energy := Some energy;
                                EF.food := Some food;
                                EF.waste := Some waste;
                                EF.shopping := Some shopping |};
     conversions := Some conv |}.

(* config.js loaded, and not loaded. *)
Definition loaded (c : Config num) : Globals num :=
  {| CONFIG := Some c; windowCONFIG := None |}.

Definition notLoaded : Globals num :=
  {| CONFIG := None; windowCONFIG := None |}.

Definition storedCo2e (o : Outcome num) : option num :=
  option_map (@Calc.co2e num) (currentCalculation (state o)).

Definition storedBreakdown (o : Outcome num) : option (Breakdown.t num) :=
  match currentCalculation (state o) with
  | Some c => Calc.breakdown c
  | None => None
  end.

(* The five values of a breakdown, in the order of its keys. *)
Definition values (b : Breakdown.t num) : list num :=
  [Breakdown.transport b; Breakdown.energy b; Breakdown.food b;
   Breakdown.waste b; Breakdown.shopping b].

Definition sum (l : list num) : num := fold_left num_add l (lit 0).

(* The comparator of getPreviousCalculation: dateB - dateA. *)
Definition byDate (a b : Log.t num) : Z := (dateOf b - dateOf a)%Z.

(* A log entry of the given id, value and timestamp. *)
Definition entry (id : Z) (co2e : num) (time : Z) : Log.t num :=
  {| Log.id := id; Log.category := "mixed"; Log.co2e := co2e;
     Log.timestamp := Some time; Log.date := None |}.

(* The ids of the percent inputs, and the clamp applied to them. *)
Definition percentFields : list string :=
  ["renewable-percent"; "local-food"; "recycling-percent"]%string.

Definition clamp (x : num) : num := Math_min (lit 100) (Math_max (lit 0) x).

(* ComparisonResult and compare, as the specification words them. *)
Record ComparisonResult := {
  previous : option (Log.t num);
  deltaTonnes : num;
  percentChange : num
}.

Definition compare_spec (totalTonnes : num) (previousEntry : option (Log.t num))
    : ComparisonResult :=
  match previousEntry with
  | None => {| previous := None; deltaTonnes := lit 0; percentChange := lit 0 |}
  | Some p =>
      let delta := totalTonnes - Log.co2e p in
      {| previous := Some p;
         deltaTonnes := delta;
         percentChange :=
           if Log.co2e p >? lit 0 then (delta / Log.co2e p) * lit 100 else lit 0 |}
  end.

(* The comparison the program makes is the one [r] describes: none made is
   the result for a null previous entry. *)
Definition reports (made : option (num * num)) (r : ComparisonResult) : Prop :=
  match made with
  | None => r = {| previous := None; deltaTonnes := lit 0; percentChange := lit 0 |}
  | Some (difference, percent) =>
      previous r <> None /\ deltaTonnes r = difference /\ percentChange r = percent
  end.

(* The groups of the fallback configuration. *)
Definition fallbackTransport : EF.Transport num :=
  {| EF.car := lit 0.41; EF.flightShort := lit 0.158; EF.publicTransport := lit 0.053 |}.
Definition fallbackEnergy : EF.Energy num :=
  {| EF.electricity := lit 0.233; EF.gas := lit 5.3 |}.
Definition fallbackFood : EF.Food num :=
  {| EF.meatMeal := lit 7.19; EF.dairyServing := lit 2.5 |}.
Definition fallbackWaste : EF.Waste num :=
  {| EF.wasteBag := lit 2.5; EF.recyclingOffset := lit (-1.2) |}.
Definition fallbackShopping : EF.Shopping num :=
  {| EF.general := lit 0.005; EF.electronics := lit 50 |}.
Definition fallbackConversions : Conversions num :=
  {| kgToTonnes := lit 0.001; treesPerTonne := lit 20 |}.

End Vocabulary.

(* Fixtures of the examples. *)
Definition withoutConversions : Config float :=
  {| emissionFactors := emissionFactors fallbackConfig; conversions := None |}.

Definition fullPage : Page :=
  {| calculationResult := true; resultValue := true; resultDescription := true |}.

Definition nothingStored : AppState float := {| currentCalculation := None |}.



(* The place of a binary64 value in the order of the numbers: the kind
   (-infinity, negative, zero, positive, +infinity), then the exponent and
   the mantissa; none for NaN.  The two zeros have one place. *)
Definition place (x : spec_float) : option (Z * Z * Z) :=
  match x with
  | S754_nan => None
  | S754_zero _ => Some (0, 0, 0)%Z
  | S754_infinity false => Some (2, 0, 0)%Z
  | S754_infinity true => Some (-2, 0, 0)%Z
  | S754_finite false m e => Some (1, e, Zpos m)%Z
  | S754_finite true m e => Some (-1, - e, Zneg m)%Z
  end.

Definition before (a b : Z * Z * Z) : bool :=
  let '(a1, a2, a3) := a in
  let '(b1, b2, b3) := b in
  ((a1 <? b1) || ((a1 =? b1) && ((a2 <? b2) || ((a2 =? b2) && (a3 <? b3)))))%Z.

Definition samePlace (a b : Z * Z * Z) : bool :=
  let '(a1, a2, a3) := a in
  let '(b1, b2, b3) := b in
  ((a1 =? b1) && (a2 =? b2) && (a3 =? b3))%Z.

(* A binary64 value that is a number and is not below 0. *)
Definition nonNegative (x : float) : Prop :=
  is_nan x = false /\ (x <? 0)%float = false.

(* The ids of the inputs that are quantities. *)
Definition quantityFields : list string :=
  ["car-miles"; "flights"; "public-transport"; "electricity"; "gas";
   "meat-meals"; "dairy-products"; "waste-bags"; "shopping-spend";
   "electronics"]%string.

(* A binary64 value that is +0, -0 or NaN. *)
Definition nothing (x : float) : Prop :=
  match Prim2SF x with
  | S754_zero _ | S754_nan => True
  | _ => False
  end.

(* A value of sign +, a zero, or NaN. *)
Definition unsigned (p : spec_float) : Prop :=
  match p with
  | S754_finite true _ _ | S754_infinity true => False
  | _ => True
  end.

(* The change a note words for the comparison a description words. *)
Definition noteOf {num : Type} (c : Comparison num) : NoteChange num :=
  match c with
  | Less difference _ => Reduction difference
  | More difference _ => Increase difference
  | Matches | NoComparison => NoChange
  end.

(* Rates that are not negative, over the rationals and in binary64. *)
Definition ratesNotNegative (tr : EF.Transport Q) (en : EF.Energy Q)
    (fo : EF.Food Q) (sh : EF.Shopping Q) : Prop :=
  (0 <= EF.car tr /\ 0 <= EF.flightShort tr /\ 0 <= EF.publicTransport tr
   /\ 0 <= EF.electricity en /\ 0 <= EF.gas en
   /\ 0 <= EF.meatMeal fo /\ 0 <= EF.dairyServing fo
   /\ 0 <= EF.general sh /\ 0 <= EF.electronics sh)%Q.

Definition ratesNotBelowZero (tr : EF.Transport float) (fo : EF.Food float)
    (sh : EF.Shopping float) : Prop :=
  ((EF.car tr <? 0) = false /\ (EF.flightShort tr <? 0) = false
   /\ (EF.publicTransport tr <? 0) = false
   /\ (EF.meatMeal fo <? 0) = false /\ (EF.dairyServing fo <? 0) = false
   /\ (EF.general sh <? 0) = false /\ (EF.electronics sh <? 0) = false)%float.

(* The tonnes of all the entries, over the rationals. *)
Definition tonnes (logs : list (Log.t Q)) : Q :=
  fold_left Qplus (map (@Log.co2e Q) logs) 0%Q.

(* Fixtures of the further examples: a calendar in which every instant is
   in November 2026, a factor table over the rationals, a canvas. *)
Definition year2026 (t : Z) : Z := 2026.
Definition november (t : Z) : Z := 10.
Definition sevenDaysBefore (t : Z) : Z := t - 7 * 24 * 60 * 60 * 1000.

(* The rational a binary64 value stands for; none for NaN and infinities. *)
Definition valueOf (x : float) : option Q :=
  match Prim2SF x with
  | S754_zero _ => Some 0%Q
  | S754_finite s m e =>
      Some (inject_Z (if s then Zneg m else Zpos m) * Qpower 2 e)%Q
  | _ => None
  end.

(* |x - y| <= tolerance * max(|x|, |y|), on the values held. *)
Definition closeTo (tolerance : Q) (x y : float) : bool :=
  match valueOf x, valueOf y with
  | Some p, Some q => Qle_bool (Qabs (p - q)) (tolerance * Qmax (Qabs p) (Qabs q))
  | _, _ => false
  end.

(* |x - q| <= tolerance * |q|, for a decimal q. *)
Definition near (tolerance : Q) (x : float) (q : Q) : bool :=
  match valueOf x with
  | Some p => Qle_bool (Qabs (p - q)) (tolerance * Qabs q)
  | None => false
  end.

(* All the orders in which a list can be summed. *)
Fixpoint inserts {X : Type} (x : X) (l : list X) : list (list X) :=
  match l with
  | [] => [[x]]
  | y :: r => (x :: l) :: map (cons y) (inserts x r)
  end.

Fixpoint orders {X : Type} (l : list X) : list (list X) :=
  match l with
  | [] => [[]]
  | x :: r => flat_map (inserts x) (orders r)
  end.

(* The form in which every field that is absent, not a number or negative
   holds 0, and every other field what it held. *)
Definition replaced (document : Form float) : Form float :=
  fun id =>
    match document id with
    | None => Some 0%float
    | Some v => if is_nan v || (v <? 0)%float then Some 0%float else Some v
    end.

(* The number a form holds in a field; 0 where the element is absent. *)
Definition held (document : Form float) (id : string) : float :=
  match document id with
  | Some v => v
  | None => 0%float
  end.


Definition tinyConversion : Config float :=
  {| emissionFactors := emissionFactors fallbackConfig;
     conversions := Some {| kgToTonnes := 6.2e-322%float;
                            treesPerTonne := 20%float |} |}.

Definition hugeConversion : Config float :=
  {| emissionFactors := emissionFactors fallbackConfig;
     conversions := Some {| kgToTonnes := 4.8087747966014935e+305%float;
                            treesPerTonne := 20%float |} |}.

Definition negativeRate : Config float :=
  complete fallbackTransport fallbackEnergy fallbackFood fallbackWaste
    {| EF.general := (-1.1885999999999999)%float;
       EF.electronics := 50%float |}
    fallbackConversions.

Definition refunded : Form float :=
  setValue (setValue (setValue (setValue allZero
    "car-miles" 1%float) "electricity" 1%float) "gas" 1%float)
    "shopping-spend" 5%float.

Definition refundedBreakdown : Breakdown.t float :=
  {| Breakdown.transport := 4.92%float;
     Breakdown.energy := 66.396%float;
     Breakdown.food := 0%float;
     Breakdown.waste := 0%float;
     Breakdown.shopping := (-71.316)%float |}.

Definition fourQuantities : Form float :=
  setValue (setValue (setValue (setValue allZero
    "car-miles" 28%float) "electricity" 16%float) "gas" 3%float)
    "shopping-spend" 9%float.

Definition fourQuantitiesBreakdown : Breakdown.t float :=
  {| Breakdown.transport := 137.75999999999999%float;
     Breakdown.energy := 235.536%float;
     Breakdown.food := 0%float;
     Breakdown.waste := 0%float;
     Breakdown.shopping := 0.54000000000000004%float |}.









(** * Properties *)

Unset Implicit Arguments.

(** ** getPreviousCalculation: the most recent entry *)

Section MostRecent.

Context {num : Type}.
Implicit Types (a b e : Log.t num) (logs : list (Log.t num)).

Lemma getPreviousCalculation_cons a logs :
  getPreviousCalculation (a :: logs) = hd_error (sort byDate (a :: logs)).
Proof. reflexivity. Qed.

Lemma insert_perm a logs : Permutation (a :: logs) (insert byDate a logs).
Proof.
  induction logs as [|b rest IH]; simpl; [apply Permutation_refl|].
  destruct (byDate a b <=? 0)%Z; [apply Permutation_refl|].
  eapply perm_trans; [apply perm_swap|]. now apply perm_skip.
Qed.

Lemma sort_perm logs : Permutation logs (sort byDate logs).
Proof.
  induction logs as [|a rest IH]; simpl; [constructor|].
  eapply perm_trans; [apply perm_skip, IH|]. apply insert_perm.
Qed.

Lemma insert_head a e rest :
  hd_error (insert byDate a (e :: rest))
  = Some (if (dateOf e <=? dateOf a)%Z then a else e).
Proof.
  simpl. unfold byDate.
  destruct (dateOf e <=? dateOf a)%Z eqn:E.
  - apply Z.leb_le in E.
    replace (dateOf e - dateOf a <=? 0)%Z with true; [reflexivity|].
    symmetry. apply Z.leb_le. lia.
  - apply Z.leb_gt in E.
    replace (dateOf e - dateOf a <=? 0)%Z with false; [reflexivity|].
    symmetry. apply Z.leb_gt. lia.
Qed.

Lemma sort_nonempty a logs : sort byDate (a :: logs) <> [].
Proof.
  intros E. pose proof (sort_perm (a :: logs)) as P. rewrite E in P.
  now apply Permutation_sym, Permutation_nil_cons in P.
Qed.

(* The sorted list is in the order of the comparator ... *)
Lemma insert_sorted a logs :
  StronglySorted (fun x y => (byDate x y <= 0)%Z) logs ->
  StronglySorted (fun x y => (byDate x y <= 0)%Z) (insert byDate a logs).
Proof.
induction 1 as [|b rest Hrest IH Hb]; simpl.
- constructor; constructor.
- destruct (byDate a b <=? 0)%Z eqn:E.
  + apply Z.leb_le in E. constructor.
    * now constructor.
    * constructor; [exact E|].
      eapply Forall_impl; [|exact Hb]. unfold byDate in *. intros; lia.
  + apply Z.leb_gt in E. constructor; [exact IH|].
    eapply Permutation_Forall; [apply insert_perm|].
    constructor; [unfold byDate in *; lia|exact Hb].
Qed.

Lemma sort_sorted logs :
  StronglySorted (fun x y => (byDate x y <= 0)%Z) (sort byDate logs).
Proof.
induction logs as [|a rest IH]; simpl; [constructor|now apply insert_sorted].
Qed.

(* ... and entries of one date keep the order they had. *)
Lemma insert_stable d a logs :
  filter (fun x => (dateOf x =? d)%Z) (insert byDate a logs)
  = filter (fun x => (dateOf x =? d)%Z) (a :: logs).
Proof.
induction logs as [|b rest IH]; [reflexivity|].
simpl insert. destruct (byDate a b <=? 0)%Z eqn:E; [reflexivity|].
apply Z.leb_gt in E. unfold byDate in E.
simpl in *. rewrite IH.
destruct (dateOf a =? d)%Z eqn:Ea; [|reflexivity].
apply Z.eqb_eq in Ea.
replace (dateOf b =? d)%Z with false; [reflexivity|].
symmetry. apply Z.eqb_neq. lia.
Qed.

Lemma sort_stable d logs :
  filter (fun x => (dateOf x =? d)%Z) (sort byDate logs)
  = filter (fun x => (dateOf x =? d)%Z) logs.
Proof.
induction logs as [|a rest IH]; [reflexivity|].
simpl sort. rewrite insert_stable. simpl. now rewrite IH.
Qed.

(* The head of the sorted list is the first entry of the greatest date. *)
Lemma sort_head a logs :
  exists pre e post,
    a :: logs = pre ++ e :: post
    /\ hd_error (sort byDate (a :: logs)) = Some e
    /\ Forall (fun x => (dateOf x < dateOf e)%Z) pre
    /\ Forall (fun x => (dateOf x <= dateOf e)%Z) post.
Proof.
  revert a. induction logs as [|b rest IH]; intros a.
  - exists [], a, []. repeat split; constructor.
  - destruct (IH b) as (pre & e & post & Hsplit & Hhd & Hpre & Hpost).
    change (sort byDate (a :: b :: rest))
      with (insert byDate a (sort byDate (b :: rest))).
    destruct (sort byDate (b :: rest)) as [|e' sorted] eqn:Hs;
      [now apply sort_nonempty in Hs|].
    simpl in Hhd. injection Hhd as ->.
    rewrite insert_head.
    destruct (dateOf e <=? dateOf a)%Z eqn:E.
    + apply Z.leb_le in E.
      exists [], a, (b :: rest). repeat split; [constructor|].
      rewrite Hsplit. apply Forall_app. split.
      * eapply Forall_impl; [|exact Hpre]. simpl. intros; lia.
      * constructor; [exact E|].
        eapply Forall_impl; [|exact Hpost]. simpl. intros; lia.
    + apply Z.leb_gt in E.
      exists (a :: pre), e, post. repeat split; trivial.
      * now rewrite Hsplit.
      * now constructor.
Qed.

End MostRecent.



(** ** Facts of binary64 used below *)

Section Binary64Facts.

Local Open Scope float_scope.

(* The literals of the program are the numbers the source text denotes. *)
Lemma literals :
  Binary64.literal 0.41 = 0.41 /\ Binary64.literal 0.158 = 0.158
  /\ Binary64.literal 0.053 = 0.053 /\ Binary64.literal 0.233 = 0.233
  /\ Binary64.literal 5.3 = 5.3 /\ Binary64.literal 7.19 = 7.19
  /\ Binary64.literal 2.5 = 2.5 /\ Binary64.literal (-1.2) = -1.2
  /\ Binary64.literal 0.005 = 0.005 /\ Binary64.literal 50 = 50
  /\ Binary64.literal 0.001 = 0.001 /\ Binary64.literal 20 = 20
  /\ Binary64.literal 0.8 = 0.8 /\ Binary64.literal 0.2 = 0.2
  /\ Binary64.literal 0.01 = 0.01 /\ Binary64.literal 1000 = 1000
  /\ Binary64.literal 52 = 52 /\ Binary64.literal 12 = 12
  /\ Binary64.literal 8 = 8 /\ Binary64.literal 4 = 4
  /\ Binary64.literal 1 = 1.
Proof. repeat split. Qed.

Lemma literal_0 : Binary64.literal 0 = 0.
Proof. reflexivity. Qed.

Lemma literal_100 : Binary64.literal 100 = 100.
Proof. reflexivity. Qed.

Lemma SFeqb_finite_refl s m e :
  SFeqb (S754_finite s m e) (S754_finite s m e) = true.
Proof.
  unfold SFeqb, SFcompare.
  destruct s; rewrite Z.compare_refl, Pos.compare_cont_refl; reflexivity.
Qed.

(* A number above 100 is a number, is not negative, and is above 0. *)
Lemma above_100 (v : float) :
  (100 <? v) = true ->
  is_nan v = false /\ (v <? 0) = false /\ (0 <? v) = true.
Proof.
  unfold is_nan. rewrite !FloatAxioms.ltb_spec, FloatAxioms.eqb_spec.
  change (Prim2SF 100) with (S754_finite false 7036874417766400 (-46)).
  change (Prim2SF 0) with (S754_zero false).
  destruct (Prim2SF v) as [s|s| |s m e]; try destruct s;
    try discriminate; intros _; repeat split.
  now rewrite SFeqb_finite_refl.
Qed.

Lemma clamp_above_100 (v : float) :
  (100 <? v) = true ->
  clamp (if is_nan v || (v <? 0) then 0 else v) = 100.
Proof.
  intros H. destruct (above_100 v H) as (Hnan & Hneg & Hpos).
  rewrite Hnan, Hneg. simpl.
  unfold clamp. simpl. rewrite literal_0, literal_100.
  unfold Binary64.max. rewrite Hnan, Hpos. simpl.
  unfold Binary64.min. rewrite Hnan, H. reflexivity.
Qed.

End Binary64Facts.

(** ** Sanitised inputs *)

Section Sanitised.

Context {num : Type} {A : Arith num}.
Local Open Scope js_scope.
Implicit Types (document : Form num) (id : string).

Lemma safeParseFloat_setValue document id v id' :
  safeParseFloat (setValue document id v) id'
  = if String.eqb id' id
    then (if isNaN v || (v <? lit 0) then lit 0 else v)
    else safeParseFloat document id'.
Proof.
  unfold safeParseFloat, setValue. now destruct (String.eqb id' id).
Qed.

(* calculateFootprint reads the form only through safeParseFloat, and the
   percent inputs only through the clamp. *)
Lemma footprint_ext c factors d1 d2 :
  (forall id, ~ In id percentFields -> safeParseFloat d1 id = safeParseFloat d2 id) ->
  (forall id, In id percentFields ->
     clamp (safeParseFloat d1 id) = clamp (safeParseFloat d2 id)) ->
  footprint c factors d1 = footprint c factors d2.
Proof.
  intros Hplain Hpercent. unfold clamp in Hpercent. unfold footprint.
  rewrite (Hplain "car-miles"%string), (Hplain "flights"%string),
    (Hplain "public-transport"%string), (Hplain "electricity"%string),
    (Hplain "gas"%string), (Hplain "meat-meals"%string),
    (Hplain "dairy-products"%string), (Hplain "waste-bags"%string),
    (Hplain "shopping-spend"%string), (Hplain "electronics"%string)
    by (simpl; intuition discriminate).
  rewrite (Hpercent "renewable-percent"%string),
    (Hpercent "local-food"%string), (Hpercent "recycling-percent"%string)
    by (simpl; tauto).
  reflexivity.
Qed.

Lemma calculateFootprint_ext g page d1 d2 logs now appState :
  (forall id, ~ In id percentFields -> safeParseFloat d1 id = safeParseFloat d2 id) ->
  (forall id, In id percentFields ->
     clamp (safeParseFloat d1 id) = clamp (safeParseFloat d2 id)) ->
  calculateFootprint g page d1 logs now appState
  = calculateFootprint g page d2 logs now appState.
Proof.
  intros Hplain Hpercent. unfold calculateFootprint.
  destruct (emissionFactors (getConfig g)) as [factors|]; [|reflexivity].
  now rewrite (@footprint_ext (getConfig g) factors d1 d2 Hplain Hpercent).
Qed.

(* Two values that safeParseFloat reads alike are interchangeable in any
   field. *)
Lemma calculateFootprint_setValue g page document logs now appState id v w :
  (if isNaN v || (v <? lit 0) then lit 0 else v)
  = (if isNaN w || (w <? lit 0) then lit 0 else w) ->
  calculateFootprint g page (setValue document id v) logs now appState
  = calculateFootprint g page (setValue document id w) logs now appState.
Proof.
  intros E. apply calculateFootprint_ext; intros id' _;
    rewrite !safeParseFloat_setValue, E; reflexivity.
Qed.

(* Two values that the clamp reads alike are interchangeable in a percent
   field. *)
Lemma calculateFootprint_setPercent g page document logs now appState id v w :
  In id percentFields ->
  clamp (if isNaN v || (v <? lit 0) then lit 0 else v)
  = clamp (if isNaN w || (w <? lit 0) then lit 0 else w) ->
  calculateFootprint g page (setValue document id v) logs now appState
  = calculateFootprint g page (setValue document id w) logs now appState.
Proof.
  intros Hid E. apply calculateFootprint_ext; intros id' Hid';
    rewrite !safeParseFloat_setValue.
  - destruct (String.eqb_spec id' id) as [->|]; [contradiction|reflexivity].
  - destruct (String.eqb id' id); [exact E|reflexivity].
Qed.

End Sanitised.

(** C4.  In any field of the form, a negative number gives the same outcome
    of calculateFootprint (stored calculation, display and return value) as
    0; in a percent field (renewable-percent, local-food,
    recycling-percent) a number above 100 gives the same outcome as 100,
    and a number below 0 the same as 0. *)
Theorem clamping_of_inputs :
  forall (g : Globals float) page document logs now appState id (v : float),
    ((v <? 0)%float = true ->
       calculateFootprint g page (setValue document id v) logs now appState
       = calculateFootprint g page (setValue document id 0%float) logs now appState)
    /\ (In id percentFields -> (100 <? v)%float = true ->
       calculateFootprint g page (setValue document id v) logs now appState
       = calculateFootprint g page (setValue document id 100%float) logs now appState).
Proof.
  intros g page document logs now appState id v. split.
  - intros Hneg. apply calculateFootprint_setValue.
    change ((if is_nan v || (v <? 0)%float then 0%float else v) = 0%float).
    now rewrite Hneg, orb_true_r.
  - intros Hid Hv. apply calculateFootprint_setPercent; [exact Hid|].
    transitivity 100%float; [exact (clamp_above_100 v Hv)|reflexivity].
Qed.

Lemma clamping_of_inputs_witness :
  calculateFootprint notLoaded
    {| calculationResult := true; resultValue := true; resultDescription := true |}
    (setValue allZero "car-miles" (-3)%float) [] 0 {| currentCalculation := None |}
  = calculateFootprint notLoaded
    {| calculationResult := true; resultValue := true; resultDescription := true |}
    (setValue allZero "car-miles" 0%float) [] 0 {| currentCalculation := None |}
  /\ calculateFootprint notLoaded
    {| calculationResult := true; resultValue := true; resultDescription := true |}
    (setValue allZero "recycling-percent" 250%float) [] 0 {| currentCalculation := None |}
  = calculateFootprint notLoaded
    {| calculationResult := true; resultValue := true; resultDescription := true |}
    (setValue allZero "recycling-percent" 100%float) [] 0 {| currentCalculation := None |}.
Proof.
  split.
  - apply (proj1 (clamping_of_inputs notLoaded _ allZero [] 0 _ "car-miles" (-3)%float)).
    reflexivity.
  - apply (proj2 (clamping_of_inputs notLoaded _ allZero [] 0 _ "recycling-percent" 250%float)).
    + simpl. tauto.
    + reflexivity.
Defined.

(** ** The try block *)

Section TryBlock.

Context {num : Type} {A : Arith num}.
Local Open Scope js_scope.

(* With every group and the conversions present, nothing is thrown. *)
Lemma footprint_complete tr en fo wa sh conv factors document :
  emissionFactors (complete tr en fo wa sh conv) = Some factors ->
  exists totalTonnes breakdown,
    footprint (complete tr en fo wa sh conv) factors document
    = Ok (totalTonnes, breakdown).
Proof.
  intros E. injection E as <-. unfold footprint. simpl. eauto.
Qed.

(* A missing group, or missing conversions, is a TypeError. *)
Lemma footprint_thrown c factors document :
  EF.transport factors = None \/ EF.energy factors = None
  \/ EF.food factors = None \/ EF.waste factors = None
  \/ EF.shopping factors = None \/ conversions c = None ->
  footprint c factors document = Thrown.
Proof.
  intros H. unfold footprint.
  destruct (EF.transport factors); [|reflexivity].
  destruct (EF.energy factors); [|reflexivity].
  destruct (EF.food factors); [|reflexivity].
  destruct (EF.waste factors); [|reflexivity].
  destruct (EF.shopping factors); [|reflexivity].
  destruct (conversions c); [|reflexivity].
  repeat (destruct H as [H|H]; [discriminate|]). discriminate.
Qed.

End TryBlock.

Section Replaced.

Local Open Scope string_scope.
Local Open Scope float_scope.

(* safeParseFloat reads a form as it reads the form with the replacements
   made, and there it reads what the field holds. *)
Lemma safeParseFloat_replaced (document : Form float) id :
  safeParseFloat (replaced document) id = safeParseFloat document id
  /\ safeParseFloat document id = held (replaced document) id.
Proof.
unfold safeParseFloat, replaced, held.
cbn [isNaN num_ltb lit binary64]. change (Binary64.literal 0) with 0.
destruct (document id) as [v|]; [|split; reflexivity].
destruct (is_nan v || (v <? 0)) eqn:E; [split; reflexivity|].
rewrite E. split; reflexivity.
Qed.

(** C7.  With the configuration present (every factor group and the
    conversions), calculateFootprint raises nothing whatever the form
    holds, and each field that is absent, not a number or negative counts
    as 0: the outcome (return value, stored calculation, display) is the
    outcome for the form in which these fields hold 0, the call returns
    true, and the calculation stored and displayed is the one the formulas
    give for the values x of that form: the eleven contributions added one
    after the other and converted to tonnes, with the breakdown by
    category. *)
Theorem never_raises_on_inputs :
  forall (g : Globals float) tr en fo wa sh conv page (document : Form float)
         logs now appState,
    getConfig g = complete tr en fo wa sh conv ->
    let out := calculateFootprint g page document logs now appState in
    let x := held (replaced document) in
    let percent := fun id => Binary64.min 100 (Binary64.max 0 (x id)) in
    let car := x "car-miles" * EF.car tr * 12 in
    let flights := x "flights" * 1000 * EF.flightShort tr in
    let public := x "public-transport" * EF.publicTransport tr * 12 in
    let electricity :=
      x "electricity" * EF.electricity en
      * (1 - percent "renewable-percent" / 100) * 12 in
    let gas := x "gas" * EF.gas en * 12 in
    let meat :=
      x "meat-meals" * EF.meatMeal fo * 52
      * Binary64.max 0.8 (1 - percent "local-food" / 100 * 0.2) in
    let dairy := x "dairy-products" * EF.dairyServing fo * 52 in
    let waste :=
      x "waste-bags" * EF.wasteBag wa * 52
      - x "waste-bags" * EF.wasteBag wa * 52
        * (percent "recycling-percent" / 100) * abs (EF.recyclingOffset wa) in
    let spend := x "shopping-spend" * EF.general sh * 12 in
    let electronics := x "electronics" * EF.electronics sh in
    out = calculateFootprint g page (replaced document) logs now appState
    /\ out
       = {| returned := true;
            state := {| currentCalculation := Some {|
              Calc.co2e :=
                (0 + car + flights + public + electricity + gas + meat + dairy
                 + waste + spend + electronics) * kgToTonnes conv;
              Calc.category := "mixed";
              Calc.timestamp := now;
              Calc.breakdown := Some {|
                Breakdown.transport := car + flights + public;
                Breakdown.energy := electricity + gas;
                Breakdown.food := meat + dairy;
                Breakdown.waste := waste;
                Breakdown.shopping := spend + electronics |} |} |};
            effects :=
              [displayCalculationResult page
                 ((0 + car + flights + public + electricity + gas + meat + dairy
                   + waste + spend + electronics) * kgToTonnes conv)
                 (getPreviousCalculation logs)] |}.
Proof.
intros g tr en fo wa sh conv page document logs now appState Hc out x percent
  car flights public electricity gas meat dairy waste spend electronics.
split.
- apply calculateFootprint_ext; intros id _;
    now rewrite (proj1 (safeParseFloat_replaced document id)).
- subst out. unfold calculateFootprint. rewrite Hc.
  cbn [complete emissionFactors]. unfold footprint.
  cbn [conversions bind defined EF.transport EF.energy EF.food EF.waste
       EF.shopping kgToTonnes].
  rewrite !(proj2 (safeParseFloat_replaced document _)).
  reflexivity.
Qed.

Lemma never_raises_on_inputs_witness :
  calculateFootprint notLoaded fullPage
    (setValue (setValue (setValue (fun _ => None) "car-miles" nan)
                 "gas" (-4)) "electricity" 300) [] 0 nothingStored
  = calculateFootprint notLoaded fullPage
      (replaced (setValue (setValue (setValue (fun _ => None) "car-miles" nan)
                             "gas" (-4)) "electricity" 300)) [] 0 nothingStored
  /\ returned (calculateFootprint notLoaded fullPage
                 (setValue (setValue (setValue (fun _ => None) "car-miles" nan)
                              "gas" (-4)) "electricity" 300) [] 0 nothingStored)
     = true.
Proof.
destruct (never_raises_on_inputs notLoaded _ _ _ _ _ _ fullPage
            (setValue (setValue (setValue (fun _ => None) "car-miles" nan)
                         "gas" (-4)) "electricity" 300) [] 0 nothingStored
            eq_refl) as [H1 H2].
split; [exact H1|]. rewrite H2. reflexivity.
Defined.

End Replaced.

(** ** Missing configuration *)

(** C6, as the claim has it, fails: with the conversion constants missing
    and 100 car miles entered, calculateFootprint stores a calculation of
    0 tonnes and displays 0. *)
Lemma missing_conversions_zero_result :
  conversions withoutConversions = None
  /\ calculateFootprint (loaded withoutConversions) fullPage
       (setValue allZero "car-miles" 100%float) [] 0 nothingStored
     = {| returned := false;
          state := {| currentCalculation := Some {|
                        Calc.co2e := 0%float; Calc.category := "mixed";
                        Calc.timestamp := 0; Calc.breakdown := None |} |};
          effects := [ShowResult 0%float (Some EnterValues)] |}.
Proof. split; reflexivity. Qed.

(** C6, amended.  When emissionFactors is missing from the configuration,
    calculateFootprint alerts and returns false; the stored calculation is
    left as it was and nothing is displayed.  When a factor group or the
    conversion constants are missing, the error is caught: the call returns
    false, and a calculation of 0 tonnes without breakdown is stored and
    displayed, whatever the form holds. *)
Theorem missing_configuration :
  forall (g : Globals float) page document logs now appState,
    (emissionFactors (getConfig g) = None ->
       calculateFootprint g page document logs now appState
       = {| returned := false; state := appState; effects := [AlertConfig] |})
    /\ (forall factors,
          emissionFactors (getConfig g) = Some factors ->
          EF.transport factors = None \/ EF.energy factors = None
          \/ EF.food factors = None \/ EF.waste factors = None
          \/ EF.shopping factors = None \/ conversions (getConfig g) = None ->
          calculateFootprint g page document logs now appState
          = {| returned := false;
               state := {| currentCalculation := Some {|
                             Calc.co2e := 0%float; Calc.category := "mixed";
                             Calc.timestamp := now; Calc.breakdown := None |} |};
               effects := [displayCalculationResult page 0%float None] |}).
Proof.
  intros g page document logs now appState. split.
  - intros E. unfold calculateFootprint. now rewrite E.
  - intros factors E H. unfold calculateFootprint. rewrite E.
    now rewrite (footprint_thrown _ _ document H).
Qed.

Lemma missing_configuration_witness :
  calculateFootprint
    (loaded {| emissionFactors := None; conversions := None |})
    fullPage allZero [] 0 nothingStored
  = {| returned := false; state := nothingStored; effects := [AlertConfig] |}
  /\ returned (calculateFootprint (loaded withoutConversions) fullPage allZero
                 [] 0 nothingStored) = false.
Proof.
  split.
  - apply (proj1 (missing_configuration
                    (loaded {| emissionFactors := None; conversions := None |})
                    fullPage allZero [] 0 nothingStored)).
    reflexivity.
  - rewrite (proj2 (missing_configuration (loaded withoutConversions)
                      fullPage allZero [] 0 nothingStored) _ eq_refl).
    + reflexivity.
    + do 5 right. reflexivity.
Defined.

(** ** The waste category *)

(** C5.  The waste value of the breakdown is
    wasteEmitted - wasteEmitted * (recyclingPercent / 100) * |recyclingOffset|,
    with wasteEmitted = wasteBags * wasteBag * 52, and is not floored at 0:
    with rates 2.5 and -1.2, one bag and 100 percent recycling it is -26. *)
Theorem waste_category :
  (forall tr en fo wa sh conv page (document : Form float) logs now appState,
      let wasteBags := safeParseFloat document "waste-bags" in
      let recyclingPercent := clamp (safeParseFloat document "recycling-percent") in
      let wasteEmittedKg := (wasteBags * EF.wasteBag wa * 52)%float in
      let recyclingOffsetKg :=
        (wasteEmittedKg * (recyclingPercent / 100) * abs (EF.recyclingOffset wa))%float in
      option_map (@Breakdown.waste float)
        (storedBreakdown
           (calculateFootprint (loaded (complete tr en fo wa sh conv)) page
              document logs now appState))
      = Some (wasteEmittedKg - recyclingOffsetKg)%float)
  /\ (forall tr en fo sh conv page (document : Form float) logs now appState,
        option_map (@Breakdown.waste float)
          (storedBreakdown
             (calculateFootprint
                (loaded (complete tr en fo
                           {| EF.wasteBag := 2.5%float; EF.recyclingOffset := (-1.2)%float |}
                           sh conv))
                page
                (setValue (setValue document "waste-bags" 1%float)
                   "recycling-percent" 100%float)
                logs now appState))
        = Some (-26)%float).
Proof.
  split; intros; reflexivity.
Qed.

(** ** The worked example *)

(** C8.  With the fallback factors (car 0.41, electricity 0.233, kgToTonnes
    0.001), 100 car miles, 300 of electricity, 50 percent renewable and 0
    in every other field: the transport value is 492 kg, the energy value
    419.4 kg, the other categories 0 and the total 0.9114 tonnes.  These are
    the values of the formulas; in binary64 the program holds 492, the
    numbers next to 419.4 and 0.9114 (419.40000000000003 and
    0.9114000000000001, within 1e-9 of them) and 0. *)
Theorem worked_example :
  (forall page logs now appState,
      let out :=
        calculateFootprint (A := exact) notLoaded page
          (setValue (setValue (setValue allZero "car-miles" 100)
                       "electricity" 300) "renewable-percent" 50)
          logs now appState in
      match storedBreakdown out, storedCo2e out with
      | Some b, Some total =>
          Breakdown.transport b == 492 /\ Breakdown.energy b == 419.4
          /\ Breakdown.food b == 0 /\ Breakdown.waste b == 0
          /\ Breakdown.shopping b == 0 /\ total == 0.9114
      | _, _ => False
      end)
  /\ (forall page logs now appState,
        let out :=
          calculateFootprint (A := binary64) notLoaded page
            (setValue (setValue (setValue allZero "car-miles" 100%float)
                         "electricity" 300%float) "renewable-percent" 50%float)
            logs now appState in
        storedBreakdown out
        = Some {| Breakdown.transport := 492%float;
                  Breakdown.energy := 419.40000000000003%float;
                  Breakdown.food := 0%float;
                  Breakdown.waste := 0%float;
                  Breakdown.shopping := 0%float |}
        /\ storedCo2e out = Some 0.9114000000000001%float
        /\ near 1e-9 419.40000000000003%float 419.4 = true
        /\ near 1e-9 0.9114000000000001%float 0.9114 = true).
Proof.
  split; intros page logs now appState.
  - vm_compute. repeat split.
  - repeat split.
Qed.

(** ** Displayed and stored values *)

(** C10.  When the total computed by calculateFootprint is negative or NaN,
    the value shown in the result element is 0, while
    appState.currentCalculation.co2e, and the co2e of the entry that
    saveCalculation then saves, is the total as computed.  With the fallback
    factors, one waste bag and 100 percent recycling, 0 is displayed and
    -0.026000000000000002 is stored and saved. *)
Theorem displayed_floor_stored_raw :
  (forall (g : Globals float) page document logs now appState calc,
      let out := calculateFootprint g page document logs now appState in
      calculationResult page = true -> resultValue page = true ->
      returned out = true ->
      currentCalculation (state out) = Some calc ->
      is_nan (Calc.co2e calc) || (Calc.co2e calc <? 0)%float = true ->
      (exists description, effects out = [ShowResult 0%float description])
      /\ (forall logs',
            option_map (@LogData.co2e float) (saveCalculation (state out) logs')
            = Some (Calc.co2e calc)))
  /\ (forall logs now appState logs',
        let out :=
          calculateFootprint notLoaded fullPage
            (setValue (setValue allZero "waste-bags" 1%float)
               "recycling-percent" 100%float) logs now appState in
        effects out = [ShowResult 0%float (Some EnterValues)]
        /\ storedCo2e out = Some (-0.026000000000000002)%float
        /\ option_map (@LogData.co2e float) (saveCalculation (state out) logs')
           = Some (-0.026000000000000002)%float).
Proof.
  split.
  - intros g page document logs now appState calc out Hdiv Hval Hret Hcalc Hneg.
    subst out. revert Hret Hcalc. unfold calculateFootprint.
    destruct (emissionFactors (getConfig g)) as [factors|]; [|discriminate].
    destruct (footprint (getConfig g) factors document) as [[t b]|];
      [|discriminate].
    simpl. intros _ E. injection E as <-. simpl in Hneg. split.
    + unfold displayCalculationResult. rewrite Hdiv, Hval. simpl.
      rewrite literal_0, Hneg. eauto.
    + intros logs'. reflexivity.
  - intros logs now appState logs'. repeat split.
Qed.

Lemma displayed_floor_stored_raw_witness :
  exists description,
    effects (calculateFootprint notLoaded fullPage
               (setValue (setValue allZero "waste-bags" 1%float)
                  "recycling-percent" 100%float) [] 0 nothingStored)
    = [ShowResult 0%float description].
Proof.
  apply (proj1 displayed_floor_stored_raw notLoaded fullPage
           (setValue (setValue allZero "waste-bags" 1%float)
              "recycling-percent" 100%float) [] 0%Z nothingStored
           {| Calc.co2e := (-0.026000000000000002)%float;
              Calc.category := "mixed"; Calc.timestamp := 0%Z;
              Calc.breakdown :=
                Some {| Breakdown.transport := 0%float;
                        Breakdown.energy := 0%float;
                        Breakdown.food := 0%float;
                        Breakdown.waste := (-26)%float;
                        Breakdown.shopping := 0%float |} |});
    reflexivity.
Defined.

(** ** A previous entry of no value *)

(** C9.  A previous entry whose co2e is 0 (of either sign) or missing (NaN)
    is treated as no previous entry: no difference and no percent change is
    computed, displayCalculationResult shows what it shows for null, and
    calculateFootprint and saveCalculation give what they give for an empty
    log. *)
Theorem worthless_previous_is_null :
  (truthy 0%float = false /\ truthy (-0)%float = false /\ truthy nan = false)
  /\ (forall (p : Log.t float),
        truthy (Log.co2e p) = false ->
        (forall displayValue, comparison displayValue (Some p) = None)
        /\ (forall page tonnes,
              displayCalculationResult page tonnes (Some p)
              = displayCalculationResult page tonnes None)
        /\ (forall logs g page document now appState,
              getPreviousCalculation logs = Some p ->
              calculateFootprint g page document logs now appState
              = calculateFootprint g page document [] now appState)
        /\ (forall logs appState,
              getPreviousCalculation logs = Some p ->
              saveCalculation appState logs = saveCalculation appState [])).
Proof.
  split; [repeat split|].
  intros p Hp.
  assert (Hc : forall displayValue, comparison displayValue (Some p) = None)
    by (intros; unfold comparison; now rewrite Hp).
  split; [exact Hc|]. split; [|split].
  - intros page tonnes. unfold displayCalculationResult. now rewrite Hc.
  - intros logs g page document now appState Hprev. unfold calculateFootprint.
    rewrite Hprev. change (getPreviousCalculation []) with (@None (Log.t float)).
    destruct (emissionFactors (getConfig g)) as [factors|]; [|reflexivity].
    destruct (footprint (getConfig g) factors document) as [[t b]|];
      [|reflexivity].
    unfold displayCalculationResult. now rewrite Hc.
  - intros logs appState Hprev. unfold saveCalculation. rewrite Hprev, Hp.
    reflexivity.
Qed.

Lemma worthless_previous_is_null_witness :
  displayCalculationResult fullPage 5%float (Some (entry 1 0%float 1))
  = displayCalculationResult fullPage 5%float None.
Proof.
  apply (proj2 worthless_previous_is_null (entry 1 0%float 1)); reflexivity.
Defined.

(** ** The comparison with the previous calculation *)

Section Comparison.

Context {num : Type} {A : Arith num}.
Local Open Scope js_scope.

Lemma truthy_parseFloat (x : num) : truthy x = true -> parseFloat x = x.
Proof.
unfold truthy, parseFloat. destruct (x =? lit 0); [|reflexivity].
now rewrite orb_true_r.
Qed.

Lemma comparison_truthy (displayValue : num) (p : Log.t num) :
  truthy (Log.co2e p) = true ->
  comparison displayValue (Some p)
  = Some (displayValue - Log.co2e p,
          if Log.co2e p >? lit 0
          then ((displayValue - Log.co2e p) / Log.co2e p) * lit 100
          else lit 0).
Proof.
intros Hp. unfold comparison. now rewrite Hp, (truthy_parseFloat _ Hp), Hp.
Qed.

End Comparison.

(** C2, as the claim has it, fails: for a previous entry whose co2e is 0 the
    claim gives deltaTonnes 5 - 0 = 5, while the program makes no
    comparison and reports none. *)
Lemma zero_previous_not_compared :
  ~ reports (comparison 5%float (Some (entry 1 0%float 1)))
      (compare_spec 5%float (Some (entry 1 0%float 1)))
  /\ deltaTonnes (compare_spec 5%float (Some (entry 1 0%float 1))) = 5%float
  /\ comparison 5%float (Some (entry 1 0%float 1)) = None
  /\ displayCalculationResult fullPage 5%float (Some (entry 1 0%float 1))
     = ShowResult 5%float (Some (Assessment NearAverage NoComparison)).
Proof.
repeat split. intros E. vm_compute in E. discriminate E.
Qed.

(** C2, amended.  No comparison is made when the previous entry is null, and
    none when its co2e is 0 or NaN.  For a previous entry of any other co2e,
    the difference is the current value minus previous.co2e and the percent
    change is (difference / previous.co2e) * 100 when previous.co2e > 0 and
    0 otherwise; displayCalculationResult makes this comparison for a total
    that is displayed as it is (not NaN, not negative) and is not 0, and
    words it from these two numbers.  A current value of 5 against a
    previous co2e of 4 gives difference 1 and percent change 25, shown as
    an increase. *)
Theorem comparison_with_previous :
  (forall current : float,
      reports (comparison current None) (compare_spec current None))
  /\ (forall (current : float) p,
        truthy (Log.co2e p) = true ->
        reports (comparison current (Some p)) (compare_spec current (Some p)))
  /\ (forall (current : float) p,
        truthy (Log.co2e p) = false -> comparison current (Some p) = None)
  /\ (forall (tonnes : float) p,
        is_nan tonnes || (tonnes <? 0)%float = false ->
        (tonnes =? 0)%float = false ->
        truthy (Log.co2e p) = true ->
        let r := compare_spec tonnes (Some p) in
        displayCalculationResult fullPage tonnes (Some p)
        = ShowResult tonnes
            (Some (Assessment
                     (if (tonnes <? 4)%float then BelowAverage
                      else if (tonnes <? 8)%float then NearAverage
                      else AboveAverage)
                     (if (0.01 <? abs (deltaTonnes r))%float then
                        if (deltaTonnes r <? 0)%float
                        then Less (abs (deltaTonnes r)) (abs (percentChange r))
                        else More (deltaTonnes r) (percentChange r)
                      else Matches))))
  /\ (forall id time,
        comparison 5%float (Some (entry id 4%float time)) = Some (1%float, 25%float)
        /\ displayCalculationResult fullPage 5%float (Some (entry id 4%float time))
           = ShowResult 5%float
               (Some (Assessment NearAverage (More 1%float 25%float)))).
Proof.
split; [|split; [|split; [|split]]].
- intros current. reflexivity.
- intros current p Hp. rewrite (comparison_truthy _ _ Hp).
  simpl. repeat split. discriminate.
- intros current p Hp. unfold comparison. now rewrite Hp.
- intros tonnes p Hfloor Hzero Hp r. subst r.
  unfold displayCalculationResult. rewrite (comparison_truthy _ _ Hp).
  change (isNaN tonnes || (tonnes <? lit 0)%js)
    with (is_nan tonnes || (tonnes <? 0)%float).
  rewrite Hfloor.
  change (tonnes =? lit 0)%js with (tonnes =? 0)%float.
  rewrite Hzero. reflexivity.
- intros id time. split; reflexivity.
Qed.

Lemma comparison_with_previous_witness :
  reports (comparison 5%float (Some (entry 1 4%float 1)))
    (compare_spec 5%float (Some (entry 1 4%float 1)))
  /\ comparison 5%float (Some (entry 1 nan 1)) = None
  /\ displayCalculationResult fullPage 3%float (Some (entry 1 4%float 1))
     = ShowResult 3%float
         (Some (Assessment BelowAverage (Less 1%float 25%float))).
Proof.
split; [|split].
- apply (proj1 (proj2 comparison_with_previous)). reflexivity.
- apply (proj1 (proj2 (proj2 comparison_with_previous))). reflexivity.
- apply (proj1 (proj2 (proj2 (proj2 comparison_with_previous)))
           3%float (entry 1 4%float 1)); reflexivity.
Defined.

(** ** The total and the breakdown *)

Lemma inserts_middle {X : Type} (x : X) (l1 l2 : list X) :
  In (l1 ++ x :: l2) (inserts x (l1 ++ l2)).
Proof.
induction l1 as [|a l1 IH]; simpl.
- destruct l2; simpl; auto.
- right. apply in_map. exact IH.
Qed.

(* [orders l] holds every rearrangement of [l]. *)
Lemma orders_complete {X : Type} (l : list X) :
  forall l', Permutation l l' -> In l' (orders l).
Proof.
induction l as [|x r IH]; intros l' P.
- apply Permutation_nil in P. subst. simpl. auto.
- assert (Hin : In x l') by (eapply Permutation_in; [exact P|now left]).
  apply in_split in Hin. destruct Hin as (l1 & l2 & ->).
  apply Permutation_cons_app_inv in P.
  simpl. apply in_flat_map. exists (l1 ++ l2). split.
  + now apply IH.
  + apply inserts_middle.
Qed.


(* So it fails with a negative rate: with -1.1885999999999999 for the
   shopping spend, 1 car mile, 1 of electricity, 1 of gas and 5 of shopping
   spend, the waste value is 0 and the shopping value -71.316; the total
   stored is the normal number -1.4210854715202004e-17, and the sum of the
   breakdown values times kgToTonnes is not within 1e-9 of it in any
   order. *)
Lemma negative_rate_not_within_tolerance :
  storedCo2e (calculateFootprint (loaded negativeRate) fullPage refunded
                [] 0 nothingStored)
  = Some (-1.4210854715202004e-17)%float
  /\ storedBreakdown
       (calculateFootprint (loaded negativeRate) fullPage refunded
          [] 0 nothingStored)
     = Some refundedBreakdown
  /\ classify (-1.4210854715202004e-17)%float = NNormal
  /\ forallb (fun l => negb (closeTo 1e-9 (-1.4210854715202004e-17)%float
                              (sum l * 0.001)%float))
       (orders (values refundedBreakdown)) = true.
Proof.
repeat split; vm_compute; reflexivity.
Qed.

(* With no negative contribution the claim still fails when the total
   underflows: with the fallback rates, a kgToTonnes of 6.2e-322, 28 car
   miles, 16 of electricity, 3 of gas and 9 of shopping spend, no breakdown
   value is negative, the total stored is the subnormal number
   2.308719356451561e-319, and the sum of the breakdown values times
   kgToTonnes, in whichever order they are added, is
   2.3087687630161451e-319. *)
Lemma tiny_conversion_not_within_tolerance :
  storedCo2e (calculateFootprint (loaded tinyConversion) fullPage fourQuantities
                [] 0 nothingStored)
  = Some 2.308719356451561e-319%float
  /\ storedBreakdown
       (calculateFootprint (loaded tinyConversion) fullPage fourQuantities
          [] 0 nothingStored)
     = Some fourQuantitiesBreakdown
  /\ forallb (fun x => negb (x <? 0)%float) (values fourQuantitiesBreakdown) = true
  /\ classify 2.308719356451561e-319%float = PSubn
  /\ forallb (fun l => negb (closeTo 1e-9 2.308719356451561e-319%float
                              (sum l * 6.2e-322)%float))
       (orders (values fourQuantitiesBreakdown)) = true.
Proof.
repeat split; vm_compute; reflexivity.
Qed.

(* Nor does it hold when the product overflows: with a kgToTonnes of
   4.8087747966014935e+305 and the same form, the total stored is the
   largest binary64 number, a normal one, and the sum of the breakdown
   values times kgToTonnes is infinite in whichever order they are added. *)
Lemma huge_conversion_not_within_tolerance :
  storedCo2e (calculateFootprint (loaded hugeConversion) fullPage fourQuantities
                [] 0 nothingStored)
  = Some 1.7976931348623157e+308%float
  /\ storedBreakdown
       (calculateFootprint (loaded hugeConversion) fullPage fourQuantities
          [] 0 nothingStored)
     = Some fourQuantitiesBreakdown
  /\ classify 1.7976931348623157e+308%float = PNormal
  /\ forallb (fun l => is_infinity (sum l * 4.8087747966014935e+305)%float
                       && negb (closeTo 1e-9 1.7976931348623157e+308%float
                                  (sum l * 4.8087747966014935e+305)%float))
       (orders (values fourQuantitiesBreakdown)) = true.
Proof.
repeat split; vm_compute; reflexivity.
Qed.

(* With the formulas read over the rationals, that is before any rounding,
   the total in tonnes is the sum of the five breakdown values times
   kgToTonnes, for every form and every table of factors. *)
Lemma total_is_breakdown_sum_exact :
  forall tr en fo wa sh conv page (document : Form Q) logs now appState,
    let out :=
      calculateFootprint (A := exact) (loaded (complete tr en fo wa sh conv))
        page document logs now appState in
    match storedCo2e out, storedBreakdown out with
    | Some total, Some b => total == sum (values b) * kgToTonnes conv
    | _, _ => False
    end.
Proof.
intros tr en fo wa sh conv page document logs now appState.
cbv [storedCo2e storedBreakdown calculateFootprint footprint getConfig loaded
     complete bind defined option_map state currentCalculation CONFIG
     emissionFactors conversions Calc.co2e Calc.breakdown values sum fold_left
     Breakdown.transport Breakdown.energy Breakdown.food Breakdown.waste
     Breakdown.shopping EF.transport EF.energy EF.food EF.waste EF.shopping
     num_add num_sub num_mul num_div exact lit].
ring.
Qed.


(** * Further properties *)

(** ** The order of binary64 values *)

Section Binary64Order.

Local Open Scope float_scope.

Lemma SFltb_place (x y : spec_float) :
  SFltb x y
  = match place x, place y with
    | Some a, Some b => before a b
    | _, _ => false
    end.
Proof.
unfold SFltb, SFcompare.
destruct x as [sx|sx| |sx mx ex], y as [sy|sy| |sy my ey];
  try destruct sx; try destruct sy; try reflexivity; cbn [place before];
  change (Pos.compare_cont Eq mx my) with (mx ?= my)%positive;
  destruct (Z.compare_spec ex ey); destruct (Pos.compare_spec mx my); simpl; lia.
Qed.

Lemma SFeqb_place (x y : spec_float) :
  SFeqb x y
  = match place x, place y with
    | Some a, Some b => samePlace a b
    | _, _ => false
    end.
Proof.
unfold SFeqb, SFcompare.
destruct x as [sx|sx| |sx mx ex], y as [sy|sy| |sy my ey];
  try destruct sx; try destruct sy; try reflexivity; cbn [place samePlace];
  change (Pos.compare_cont Eq mx my) with (mx ?= my)%positive;
  destruct (Z.compare_spec ex ey); destruct (Pos.compare_spec mx my); simpl; lia.
Qed.

Lemma ltb_place (x y : float) :
  (x <? y)
  = match place (Prim2SF x), place (Prim2SF y) with
    | Some a, Some b => before a b
    | _, _ => false
    end.
Proof. rewrite FloatAxioms.ltb_spec. apply SFltb_place. Qed.

Lemma eqb_place (x y : float) :
  (x =? y)
  = match place (Prim2SF x), place (Prim2SF y) with
    | Some a, Some b => samePlace a b
    | _, _ => false
    end.
Proof. rewrite FloatAxioms.eqb_spec. apply SFeqb_place. Qed.

Lemma is_nan_place (x : float) :
  is_nan x = match place (Prim2SF x) with Some _ => false | None => true end.
Proof.
unfold is_nan. rewrite eqb_place.
destruct (place (Prim2SF x)) as [[[a b] c]|]; [|reflexivity].
unfold samePlace. lia.
Qed.

End Binary64Order.

(* Comparisons are decided on the places of the values. *)
Ltac places :=
  rewrite ?ltb_place, ?eqb_place, ?is_nan_place in *;
  repeat match goal with
  | |- context [place (Prim2SF ?c)] =>
      tryif is_var c then fail else
      let v := eval vm_compute in (place (Prim2SF c)) in
      change (place (Prim2SF c)) with v in *
  | H : context [place (Prim2SF ?c)] |- _ =>
      tryif is_var c then fail else
      let v := eval vm_compute in (place (Prim2SF c)) in
      change (place (Prim2SF c)) with v in *
  end;
  repeat match goal with
  | x : float |- _ =>
      match goal with
      | |- context [place (Prim2SF x)] => idtac
      | H : context [place (Prim2SF x)] |- _ => idtac
      end;
      destruct (place (Prim2SF x)) as [[[? ?] ?]|]
  end;
  unfold before, samePlace in *; simpl in *; try discriminate; try lia.

(** ** Readings in binary64 *)

Section Binary64Readings.

Local Open Scope float_scope.

Lemma clamp_bounds (x : float) :
  nonNegative x ->
  nonNegative (clamp x) /\ (100 <? clamp x) = false.
Proof.
unfold nonNegative, clamp. cbn [Math_min Math_max binary64 lit].
change (Binary64.literal 0) with 0. change (Binary64.literal 100) with 100.
intros [Hnan Hneg].
unfold Binary64.max. rewrite Hnan. cbn [is_nan orb]. 
change (is_nan 0) with false. cbn [orb]. change (get_sign 0) with false.
destruct (0 <? x) eqn:H0; [|destruct (x <? 0) eqn:H1].
all: unfold Binary64.min; change (is_nan 100) with false; cbn [orb];
  change (get_sign 100) with false.
- rewrite Hnan. destruct (100 <? x) eqn:H2; [|destruct (x <? 100) eqn:H3].
  all: repeat split; places.
- discriminate.
- repeat split; vm_compute; reflexivity.
Qed.

Lemma safeParseFloat_read (document : Form float) id :
  nonNegative (safeParseFloat document id).
Proof.
unfold safeParseFloat, nonNegative. destruct (document id) as [v|].
- cbn [isNaN num_ltb lit binary64]. change (Binary64.literal 0) with 0.
  destruct (is_nan v || (v <? 0)) eqn:E.
  + split; reflexivity.
  + apply orb_false_elim in E. exact E.
- split; reflexivity.
Qed.

(** X1.  Whatever a form field holds, the number safeParseFloat reads from it
    is a number (not NaN) and is not below 0. *)
Theorem safeParseFloat_nonNegative (document : Form float) id :
  is_nan (safeParseFloat document id) = false
  /\ (safeParseFloat document id <? 0) = false.
Proof.
exact (safeParseFloat_read document id).
Qed.

(** X2.  The percent read from a form field by
    Math.min(100, Math.max(0, safeParseFloat(id))) is a number, not below 0
    and not above 100. *)
Theorem percent_within_bounds (document : Form float) id :
  let percent := clamp (safeParseFloat document id) in
  is_nan percent = false /\ (percent <? 0) = false /\ (100 <? percent) = false.
Proof.
destruct (clamp_bounds _ (safeParseFloat_read document id)) as [[H1 H2] H3].
auto.
Qed.

(** X3.  The value displayCalculationResult writes into the result element is
    never NaN and never below 0. *)
Theorem displayed_value_not_negative page (tonnes : float) previous value description :
  displayCalculationResult page tonnes previous = ShowResult value description ->
  nonNegative value.
Proof.
unfold displayCalculationResult.
destruct (negb (calculationResult page) || negb (resultValue page)); [discriminate|].
intros E. injection E as <- _.
cbn [isNaN num_ltb lit binary64]. change (Binary64.literal 0) with 0.
unfold nonNegative.
destruct (is_nan tonnes || (tonnes <? 0)) eqn:E.
- split; reflexivity.
- apply orb_false_elim in E. exact E.
Qed.


Lemma nothing_mul x y : nothing x -> nothing (x * y).
Proof.
unfold nothing. rewrite FloatAxioms.mul_spec. unfold SF64mul.
destruct (Prim2SF x) as [sx|sx| |sx mx ex]; try contradiction;
  destruct (Prim2SF y) as [sy|sy| |sy my ey]; intros _; exact I.
Qed.

Lemma nothing_add x y : nothing x -> nothing y -> nothing (x + y).
Proof.
unfold nothing. rewrite FloatAxioms.add_spec. unfold SF64add.
destruct (Prim2SF x) as [sx|sx| |sx mx ex]; try contradiction;
  destruct (Prim2SF y) as [sy|sy| |sy my ey]; try contradiction; intros _ _;
  try exact I; destruct sx, sy; exact I.
Qed.

Lemma nothing_sub x y : nothing x -> nothing y -> nothing (x - y).
Proof.
unfold nothing. rewrite FloatAxioms.sub_spec. unfold SF64sub.
destruct (Prim2SF x) as [sx|sx| |sx mx ex]; try contradiction;
  destruct (Prim2SF y) as [sy|sy| |sy my ey]; try contradiction; intros _ _;
  try exact I; destruct sx, sy; exact I.
Qed.

Lemma nothing_eqb_0 x : (x =? 0) = true -> nothing x.
Proof.
unfold nothing. rewrite FloatAxioms.eqb_spec.
change (Prim2SF 0) with (S754_zero false).
destruct (Prim2SF x) as [sx|sx| |sx mx ex]; try destruct sx; try discriminate; trivial.
Qed.

Lemma nothing_displayed x :
  nothing x -> ((if is_nan x || (x <? 0) then 0 else x) =? 0) = true.
Proof.
unfold nothing. rewrite is_nan_place, ltb_place.
change (place (Prim2SF 0)) with (Some (0, 0, 0)%Z).
destruct (Prim2SF x) as [sx|sx| |sx mx ex] eqn:E; try contradiction; intros _.
- simpl. rewrite FloatAxioms.eqb_spec, E. reflexivity.
- reflexivity.
Qed.

Lemma footprint_nothing tr en fo wa sh conv factors (document : Form float) :
  emissionFactors (complete tr en fo wa sh conv) = Some factors ->
  (forall id, In id quantityFields -> (safeParseFloat document id =? 0) = true) ->
  exists total b,
    footprint (complete tr en fo wa sh conv) factors document = Ok (total, b)
    /\ Forall nothing (total :: values b).
Proof.
intros E H. injection E as <-.
assert (Hq : forall id, In id quantityFields -> nothing (safeParseFloat document id))
  by (intros id Hid; apply nothing_eqb_0, H, Hid).
assert (H0 : nothing 0) by exact I.
unfold footprint, values.
cbn [complete conversions bind defined EF.transport EF.energy EF.food EF.waste
     EF.shopping Breakdown.transport Breakdown.energy Breakdown.food
     Breakdown.waste Breakdown.shopping num_add num_mul num_sub lit binary64].
change (Binary64.literal 0) with 0.
eexists. eexists. split; [reflexivity|].
cbn [Breakdown.transport Breakdown.energy Breakdown.food Breakdown.waste
     Breakdown.shopping].
repeat constructor;
  repeat first [apply nothing_mul | apply nothing_add | apply nothing_sub];
  try exact H0; apply Hq; simpl; tauto.
Qed.

(** X5.  When every quantity field reads 0 (it is absent, not a number,
    negative or zero), the stored total and every value of the breakdown are
    0 (of either sign) or NaN, and the page shows 0 with the prompt to enter
    values, whatever the percent fields and the table of factors hold. *)
Theorem no_quantities_no_footprint :
  forall tr en fo wa sh conv (document : Form float) logs now appState,
    (forall id, In id quantityFields -> (safeParseFloat document id =? 0) = true) ->
    let out := calculateFootprint (loaded (complete tr en fo wa sh conv)) fullPage
                 document logs now appState in
    (exists total b,
        storedCo2e out = Some total /\ storedBreakdown out = Some b
        /\ Forall nothing (total :: values b))
    /\ exists value,
        effects out = [ShowResult value (Some EnterValues)] /\ (value =? 0) = true.
Proof.
intros tr en fo wa sh conv document logs now appState H out.
destruct (footprint_nothing tr en fo wa sh conv _ document eq_refl H)
  as (t & b & E & Ht).
subst out. unfold calculateFootprint.
change (getConfig (loaded (complete tr en fo wa sh conv)))
  with (complete tr en fo wa sh conv).
cbn [complete emissionFactors]. cbn [complete emissionFactors] in E. rewrite E.
split.
- exists t, b. repeat split. exact Ht.
- inversion Ht as [|? ? Hnt _]. subst.
  pose proof (nothing_displayed _ Hnt) as Hd.
  unfold displayCalculationResult, fullPage.
  cbn [calculationResult resultValue resultDescription negb orb effects].
  change (isNaN t || (t <? lit 0)%js) with (is_nan t || (t <? 0)).
  change (lit 0) with 0.
  cbv zeta.
  change (num_eqb (if is_nan t || (t <? 0) then 0 else t) 0)
    with ((if is_nan t || (t <? 0) then 0 else t) =? 0).
  rewrite Hd. eexists. split; [reflexivity|exact Hd].
Qed.

Section Previous.
Context {num : Type}.
Implicit Types (e : Log.t num) (logs pre post : list (Log.t num)).

Lemma split_twice {X : Type} (pre pre' post post' : list X) (e e' : X) :
  pre ++ e :: post = pre' ++ e' :: post' ->
  (pre = pre' /\ e = e' /\ post = post')
  \/ (In e pre' /\ In e' post) \/ (In e' pre /\ In e post').
Proof.
revert pre'. induction pre as [|a pre IH]; intros [|a' pre'] E; simpl in E.
- injection E as -> ->. auto.
- injection E as -> ->. right. left. split; [now left|].
  apply in_or_app. right. now left.
- injection E as -> <-. right. right. split; [now left|].
  apply in_or_app. right. now left.
- injection E as -> E. destruct (IH _ E) as [(-> & -> & ->)|[[H1 H2]|[H1 H2]]].
  + auto.
  + right. left. split; [now right|exact H2].
  + right. right. split; [now right|exact H2].
Qed.

(* The entry of the greatest date that comes first is the one returned. *)
Lemma first_newest_is_previous pre e post :
  Forall (fun x => (dateOf x < dateOf e)%Z) pre ->
  Forall (fun x => (dateOf x <= dateOf e)%Z) post ->
  getPreviousCalculation (pre ++ e :: post) = Some e.
Proof.
intros Hpre Hpost.
destruct (pre ++ e :: post) as [|a logs] eqn:E;
  [now destruct pre|].
destruct (sort_head a logs) as (pre' & e' & post' & Hsplit & Hhd & Hpre' & Hpost').
rewrite getPreviousCalculation_cons, Hhd. f_equal.
rewrite Hsplit in E.
rewrite Forall_forall in Hpre, Hpost, Hpre', Hpost'.
destruct (split_twice _ _ _ _ _ _ E) as [(_ & -> & _)|[[H1 H2]|[H1 H2]]].
- reflexivity.
- specialize (Hpre' _ H1). specialize (Hpost _ H2). lia.
- specialize (Hpre _ H1). specialize (Hpost' _ H2). lia.
Qed.

(** X6.  An entry dated after every other entry of the log is the previous
    calculation, whether the store returns it last or first. *)
Theorem newest_saved_is_previous logs e :
  Forall (fun x => (dateOf x < dateOf e)%Z) logs ->
  getPreviousCalculation (logs ++ [e]) = Some e
  /\ getPreviousCalculation (e :: logs) = Some e.
Proof.
intros H. split.
- apply first_newest_is_previous; [exact H|constructor].
- apply (first_newest_is_previous [] e logs); [constructor|].
  eapply Forall_impl; [|exact H]. simpl. intros; lia.
Qed.

(** X7.  When no two entries of the log have the same date, the previous
    calculation does not depend on the order in which the store returns the
    entries. *)
Theorem previous_whatever_the_order logs logs' :
  NoDup (map (@dateOf num) logs) ->
  Permutation logs logs' ->
  getPreviousCalculation logs' = getPreviousCalculation logs.
Proof.
intros Hnd Hperm.
destruct logs as [|a logs].
- apply Permutation_nil in Hperm. now subst.
- destruct (sort_head a logs) as (pre & e & post & Hsplit & Hhd & Hpre & Hpost).
  rewrite (getPreviousCalculation_cons a logs), Hhd.
  assert (Hin : In e logs').
  { eapply Permutation_in; [exact Hperm|]. rewrite Hsplit.
    apply in_or_app. right. now left. }
  apply in_split in Hin. destruct Hin as (pre' & post' & ->).
  assert (Hothers : Forall (fun x => (dateOf x < dateOf e)%Z) (pre' ++ post')).
  { rewrite Hsplit in Hperm, Hnd.
    apply Permutation_app_inv in Hperm.
    eapply Permutation_Forall; [exact Hperm|].
    rewrite map_app in Hnd. simpl in Hnd. apply NoDup_remove_2 in Hnd.
    rewrite <- map_app in Hnd.
    apply Forall_forall. intros x Hx.
    assert (dateOf x <= dateOf e)%Z.
    { apply in_app_or in Hx. rewrite Forall_forall in Hpre, Hpost.
      destruct Hx as [Hx|Hx]; [specialize (Hpre _ Hx); lia|exact (Hpost _ Hx)]. }
    assert (dateOf x <> dateOf e).
    { intros Eq. apply Hnd. rewrite <- Eq. now apply in_map. }
    lia. }
  apply Forall_app in Hothers. destruct Hothers as [H1 H2].
  apply first_newest_is_previous; [exact H1|].
  eapply Forall_impl; [|exact H2]. simpl. intros; lia.
Qed.

End Previous.


(** X8.  When emissionFactors is missing, calculateFootprint changes nothing of
    what saveCalculation saves.  Otherwise saveCalculation then saves an
    entry, of category 'mixed', stamped with the time of the calculation,
    whose co2e, value and noted footprint are the stored total; this total is
    0 when the calculation failed and was caught. *)
Theorem saved_after_calculation :
  forall (g : Globals float) page document logs now appState logs',
    let out := calculateFootprint g page document logs now appState in
    (emissionFactors (getConfig g) = None ->
       saveCalculation (state out) logs' = saveCalculation appState logs')
    /\ (emissionFactors (getConfig g) <> None ->
        exists saved,
          saveCalculation (state out) logs' = Some saved
          /\ LogData.category saved = "mixed"%string
          /\ LogData.timestamp saved = now
          /\ storedCo2e out = Some (LogData.co2e saved)
          /\ LogData.value saved = LogData.co2e saved
          /\ calculated (LogData.notes saved) = LogData.co2e saved
          /\ (returned out = false -> LogData.co2e saved = 0)).
Proof.
intros g page document logs now appState logs' out. subst out.
unfold calculateFootprint.
destruct (emissionFactors (getConfig g)) as [factors|]; split;
  try discriminate; try congruence; try reflexivity.
intros _.
destruct (footprint (getConfig g) factors document) as [[t b]|];
  eexists; (split; [reflexivity|]); repeat split; try discriminate.
Qed.

(** X9.  For a total that is displayed as it is (not NaN, not negative) and is
    not 0, the note saved with the calculation words the change that the
    description displayed for it words: a reduction or an increase of the
    same amount, or none. *)
Theorem note_words_the_displayed_change :
  forall (g : Globals float) document logs now appState total,
    let out := calculateFootprint g fullPage document logs now appState in
    returned out = true ->
    storedCo2e out = Some total ->
    is_nan total || (total <? 0) = false ->
    (total =? 0) = false ->
    exists band c,
      effects out = [ShowResult total (Some (Assessment band c))]
      /\ option_map (fun saved => change (LogData.notes saved))
           (saveCalculation (state out) logs)
         = Some (noteOf c).
Proof.
intros g document logs now appState total out. subst out.
unfold calculateFootprint.
destruct (emissionFactors (getConfig g)) as [factors|]; [|discriminate].
destruct (footprint (getConfig g) factors document) as [[t b]|]; [|discriminate].
intros _ E Hfloor Hzero. injection E as ->.
unfold displayCalculationResult, saveCalculation, fullPage, comparison.
cbn [calculationResult resultValue resultDescription negb orb effects state
     currentCalculation Calc.co2e option_map LogData.notes change].
change (isNaN total || (total <? lit 0)%js) with (is_nan total || (total <? 0)).
rewrite Hfloor. cbv zeta.
change (total =? lit 0)%js with (total =? 0). rewrite Hzero.
eexists. 
destruct (getPreviousCalculation logs) as [p|]; [|eexists; split; reflexivity].
destruct (truthy (Log.co2e p)); [|eexists; split; reflexivity].
match goal with
| |- context [if (?x >? lit 0.01)%js then _ else _] => destruct (x >? lit 0.01)%js
end; [|eexists; split; reflexivity].
match goal with
| |- context [if (?x <? lit 0)%js then _ else _] => destruct (x <? lit 0)%js
end; eexists; split; reflexivity.
Qed.

Lemma ltb_0_unsigned (x : float) : (x <? 0) = false <-> unsigned (Prim2SF x).
Proof.
rewrite FloatAxioms.ltb_spec. change (Prim2SF 0) with (S754_zero false).
destruct (Prim2SF x) as [s|s| |s m e]; try destruct s; simpl;
  split; trivial; try discriminate; contradiction.
Qed.

Lemma round_aux_unsigned mx ex lx :
  unsigned (binary_round_aux prec emax false mx ex lx).
Proof.
unfold binary_round_aux.
destruct (shr_fexp prec emax mx ex lx) as [mrs' e'].
destruct (shr_fexp prec emax _ e' loc_Exact) as [mrs'' e''].
destruct (shr_m mrs''); simpl; trivial.
destruct (e'' <=? _)%Z; exact I.
Qed.

Lemma mul_not_below_0 x y :
  (x <? 0) = false -> (y <? 0) = false -> (x * y <? 0) = false.
Proof.
rewrite !ltb_0_unsigned, FloatAxioms.mul_spec. unfold SF64mul, SFmul.
destruct (Prim2SF x) as [sx|sx| |sx mx ex]; try destruct sx; try contradiction;
  destruct (Prim2SF y) as [sy|sy| |sy my ey]; try destruct sy; try contradiction;
  intros _ _; try exact I.
apply round_aux_unsigned.
Qed.

Lemma add_not_below_0 x y :
  (x <? 0) = false -> (y <? 0) = false -> (x + y <? 0) = false.
Proof.
rewrite !ltb_0_unsigned, FloatAxioms.add_spec. unfold SF64add, SFadd.
destruct (Prim2SF x) as [sx|sx| |sx mx ex]; try destruct sx; try contradiction;
  destruct (Prim2SF y) as [sy|sy| |sy my ey]; try destruct sy; try contradiction;
  intros _ _; try exact I.
unfold cond_Zopp, binary_normalize. simpl Z.add. unfold binary_round.
destruct (shl_align _ _ _). apply round_aux_unsigned.
Qed.

Lemma max_not_below_0 x y : (x <? 0) = false -> (Binary64.max x y <? 0) = false.
Proof.
intros Hx. unfold Binary64.max.
destruct (is_nan x || is_nan y) eqn:En; [reflexivity|].
apply orb_false_elim in En. destruct En as [En1 En2].
destruct (x <? y) eqn:E1; [|destruct (y <? x) eqn:E2; [exact Hx|]].
- places.
- destruct (get_sign x); [|exact Hx]. places.
Qed.


(** X10.  In binary64, with rates that are not below 0, the transport, food and
    shopping values of the breakdown are never below 0 (they are 0 or more,
    or NaN), whatever the form holds. *)
Theorem categories_not_below_zero :
  forall tr en fo wa sh conv page (document : Form float) logs now appState,
    ratesNotBelowZero tr fo sh ->
    match storedBreakdown
            (calculateFootprint (loaded (complete tr en fo wa sh conv))
               page document logs now appState) with
    | Some b =>
        (Breakdown.transport b <? 0) = false
        /\ (Breakdown.food b <? 0) = false
        /\ (Breakdown.shopping b <? 0) = false
    | None => False
    end.
Proof.
intros tr en fo wa sh conv page document logs now appState
  (H1 & H2 & H3 & H4 & H5 & H6 & H7).
assert (S : forall id, (safeParseFloat document id <? 0) = false)
  by (intros id; apply (proj2 (safeParseFloat_read document id))).
unfold storedBreakdown, calculateFootprint, footprint.
cbn [getConfig loaded CONFIG complete emissionFactors conversions bind defined
     EF.transport EF.energy EF.food EF.waste EF.shopping state
     currentCalculation Calc.breakdown
     Breakdown.transport Breakdown.food Breakdown.shopping
     num_add num_mul num_sub Math_max lit binary64].
repeat split;
  repeat first [apply add_not_below_0 | apply mul_not_below_0
               | apply max_not_below_0];
  try apply S; try assumption; reflexivity.
Qed.

Section Calendar.
Variables getFullYear getMonth weekBefore : Z -> Z.

Lemma orZero_not_nan (x : float) : is_nan (orZero x) = false.
Proof.
unfold orZero, truthy. cbn [isNaN num_eqb lit binary64].
destruct (is_nan x) eqn:E; simpl; [reflexivity|].
destruct (x =? Binary64.literal 0); simpl; [reflexivity|exact E].
Qed.

(* x || 0 of parseFloat(x) is x || 0. *)
Lemma orZero_parseFloat (x : float) : orZero (parseFloat x) = orZero x.
Proof.
unfold parseFloat, orZero, truthy. cbn [isNaN num_eqb lit binary64].
change (Binary64.literal 0) with 0.
destruct (x =? 0) eqn:E.
- change (0 =? 0) with true. rewrite !orb_true_r. reflexivity.
- rewrite E. reflexivity.
Qed.

Lemma monthly_data_shape (logs : list (Log.t float)) months now :
  List.length (generateMonthlyData getFullYear getMonth logs months now) = months
  /\ Forall (fun point => is_nan (Point.co2e point) = false)
       (generateMonthlyData getFullYear getMonth logs months now).
Proof.
unfold generateMonthlyData. split.
- now rewrite length_map, length_rev, length_seq.
- apply Forall_map. apply Forall_forall. intros i _. apply orZero_not_nan.
Qed.

(** X11.  generateMonthlyData returns one point for each of the months asked
    for, and no point holds NaN. *)
Theorem monthly_data_points (logs : list (Log.t float)) months now :
  List.length (generateMonthlyData getFullYear getMonth logs months now) = months
  /\ Forall (fun point => is_nan (Point.co2e point) = false)
       (generateMonthlyData getFullYear getMonth logs months now).
Proof.
exact (monthly_data_shape logs months now).
Qed.

Lemma sumCo2e_orZero (logs : list (Log.t float)) :
  sumCo2e logs
  = fold_left (fun sum log => sum + orZero (Log.co2e log)) logs 0.
Proof.
unfold sumCo2e. change (@lit float binary64 0) with 0.
generalize 0. induction logs as [|a logs IH]; intros s; [reflexivity|].
simpl. change (num_add s (orZero (parseFloat (Log.co2e a))))
  with (s + orZero (parseFloat (Log.co2e a))).
rewrite orZero_parseFloat. apply IH.
Qed.

Lemma thisMonth_sameMonth (logs : list (Log.t float)) now :
  thisMonthLogs getFullYear getMonth logs now
  = filter (sameMonth getFullYear getMonth (getFullYear now) (getMonth now)) logs.
Proof.
unfold thisMonthLogs. apply filter_ext. intros log. unfold sameMonth, logDate.
destruct (Log.timestamp log), (Log.date log); reflexivity.
Qed.

(* The last point of the trend is the figure of this month. *)
(** X12.  After the year 99, the last point of the monthly data is the figure
    updateDashboard computes for this month, with NaN read as 0. *)
Theorem trend_ends_with_this_month (logs : list (Log.t float)) months now :
  (99 < getFullYear now)%Z ->
  (0 <= getMonth now < 12)%Z ->
  option_map (@Point.co2e float)
    (nth_error (generateMonthlyData getFullYear getMonth logs (S months) now) months)
  = Some (orZero (sumCo2e (thisMonthLogs getFullYear getMonth logs now))).
Proof.
intros Hy Hm. unfold generateMonthlyData.
change (seq 0 (S months)) with (0%nat :: seq 1 months).
simpl rev. rewrite map_app. simpl map.
rewrite nth_error_app2; rewrite length_map, length_rev, length_seq; [|lia].
rewrite Nat.sub_diag. simpl.
rewrite sumCo2e_orZero, thisMonth_sameMonth.
rewrite Z.sub_0_r, Z.div_small, Z.mod_small, Z.add_0_r by lia.
unfold fullYear. destruct (Z.leb_spec (getFullYear now) 99); [lia|].
rewrite andb_false_r. reflexivity.
Qed.

(** X13.  An entry with neither timestamp nor date counts in the total of the
    dashboard, but in no month and not in the last week; for
    getPreviousCalculation it is dated at the epoch. *)
Theorem undated_entry_in_no_period (logs : list (Log.t float)) e months now :
  Log.timestamp e = None -> Log.date e = None ->
  thisMonthLogs getFullYear getMonth (logs ++ [e]) now
  = thisMonthLogs getFullYear getMonth logs now
  /\ lastWeekLogs weekBefore (logs ++ [e]) now = lastWeekLogs weekBefore logs now
  /\ generateMonthlyData getFullYear getMonth (logs ++ [e]) months now
     = generateMonthlyData getFullYear getMonth logs months now
  /\ sumCo2e (logs ++ [e]) = sumCo2e logs + orZero (Log.co2e e)
  /\ dateOf e = 0%Z.
Proof.
intros Ht Hd. repeat split.
- unfold thisMonthLogs. rewrite filter_app. simpl. rewrite Ht, Hd.
  apply app_nil_r.
- unfold lastWeekLogs. rewrite filter_app. simpl. rewrite Ht, Hd.
  apply app_nil_r.
- unfold generateMonthlyData. apply map_ext. intros i.
  rewrite filter_app. simpl. unfold sameMonth at 2, logDate. rewrite Ht, Hd.
  rewrite app_nil_r. reflexivity.
- unfold sumCo2e. rewrite fold_left_app. simpl.
  change (num_add ?a ?b) with (a + b). now rewrite orZero_parseFloat.
- unfold dateOf. now rewrite Ht, Hd.
Qed.


Lemma maxWith1_at_least_1 (values : list float) :
  Forall (fun v => is_nan v = false) values ->
  is_nan (maxWith1 values) = false /\ (maxWith1 values <? 1) = false.
Proof.
induction 1 as [|v values Hv _ [IH1 IH2]]; [split; reflexivity|].
change (maxWith1 (v :: values)) with (Binary64.max v (maxWith1 values)).
set (r := maxWith1 values) in *. clearbody r.
unfold Binary64.max. rewrite Hv, IH1. simpl.
destruct (v <? r) eqn:E1; [auto|].
destruct (r <? v) eqn:E2.
- split; [exact Hv|]. places.
- destruct (get_sign v); [auto|]. split; [exact Hv|]. places.
Qed.

(** X15.  The value drawTrendChart divides the monthly figures by,
    Math.max(...figures, 1), is a number and is not below 1. *)
Theorem trend_divisor_at_least_1 (logs : list (Log.t float)) months now :
  let maxValue :=
    maxWith1 (map (@Point.co2e float)
                (generateMonthlyData getFullYear getMonth logs months now)) in
  is_nan maxValue = false /\ (maxValue <? 1) = false.
Proof.
apply maxWith1_at_least_1. apply Forall_map.
apply (proj2 (monthly_data_shape logs months now)).
Qed.

End Calendar.

(** X16.  loadDemoData stores nothing when the log holds entries.  On an
    empty log it stores three entries, and when the three readings of the
    clock lie within a day of each other the previous calculation among them
    is the last one, the entry of 10 days ago with 1.2 tonnes. *)
Theorem demo_data_seeds_empty_store (carbonLogs : list (Log.t float))
    first second third :
  (carbonLogs <> [] -> loadDemoData carbonLogs first second third = None)
  /\ ((Z.abs (third - first) < 86400000)%Z ->
      (Z.abs (third - second) < 86400000)%Z ->
      exists written,
        loadDemoData [] first second third = Some written
        /\ List.length written = 3%nat
        /\ getPreviousCalculation written = nth_error written 2
        /\ option_map (@Log.co2e float) (getPreviousCalculation written)
           = Some 1.2).
Proof.
split.
- destruct carbonLogs; [congruence|reflexivity].
- intros H1 H2. eexists. split; [reflexivity|]. split; [reflexivity|].
  unfold demoLogs.
  match goal with
  | |- context [getPreviousCalculation [?a; ?b; ?c]] =>
      assert (P : getPreviousCalculation ([a; b] ++ c :: []) = Some c)
  end.
  { apply first_newest_is_previous; repeat constructor; unfold dateOf; simpl; lia. }
  cbn [app] in P. rewrite P. split; reflexivity.
Qed.

End Binary64Readings.

(** ** The rounding of the binary64 operations *)

(* The operations of binary64 are specified (SpecFloat, FloatAxioms) as the
   exact result rounded to nearest, ties to even, by shifts of the mantissa.
   From this specification: a sum of values that are not below 0 is within
   2^-53 of the exact sum, relative to it; a product or a quotient is within
   2^-53 of the exact one, or within 2^-1075 when it underflows. *)

(** *** Shifts of the mantissa *)

Section Shifts.
Local Open Scope Z_scope.











End Shifts.

Section Mantissas.
Local Open Scope Z_scope.





End Mantissas.

(** *** The error of one rounding *)

Section RoundingError.
Local Open Scope Q_scope.








End RoundingError.

Section Values.
Local Open Scope Q_scope.







End Values.

(** *** Products and sums *)

Section Products.
Local Open Scope Q_scope.




End Products.

Section Sums.
Local Open Scope Q_scope.






End Sums.

(** *** Quotients *)

Section QuotientDigits.
Local Open Scope Z_scope.



End QuotientDigits.

Section Quotients.
Local Open Scope Q_scope.


End Quotients.

(** *** The share 1 - percent / 100 *)

Section Grid.
Local Open Scope Q_scope.





End Grid.

Section Share.
Local Open Scope float_scope.


End Share.

(** *** On the primitive floats *)

Section PrimitiveFloats.
Local Open Scope Q_scope.







End PrimitiveFloats.

(** ** The total and the breakdown, in binary64 *)



Section Regrouping.
Local Open Scope Q_scope.



End Regrouping.

Section ConvertedTotals.
Local Open Scope Q_scope.


End ConvertedTotals.

Section Zeros.
Local Open Scope float_scope.







End Zeros.

Section Total.
Local Open Scope float_scope.



End Total.



(** ** Readings over the rationals *)

Section ExactReadings.

Local Open Scope Q_scope.

Lemma safeParseFloat_exact_nonneg (document : Form Q) id :
  0 <= safeParseFloat (A := exact) document id.
Proof.
unfold safeParseFloat. destruct (document id) as [v|]; [|apply Qle_refl].
cbn [isNaN num_ltb lit exact orb].
destruct (Qle_bool 0 v) eqn:E; simpl.
- now apply Qle_bool_iff.
- apply Qle_refl.
Qed.

Lemma clamp_exact_bounds (x : Q) : 0 <= clamp (A := exact) x <= 100.
Proof.
unfold clamp. cbn [Math_min Math_max lit exact].
split.
- apply Q.min_glb; [discriminate|apply Q.le_max_l].
- apply Q.le_min_l.
Qed.


Ltac footprint_exact :=
  cbv [storedCo2e storedBreakdown calculateFootprint footprint getConfig loaded
       complete bind defined option_map state currentCalculation CONFIG
       emissionFactors conversions Calc.co2e Calc.breakdown values sum fold_left
       Breakdown.transport Breakdown.energy Breakdown.food Breakdown.waste
       Breakdown.shopping EF.transport EF.energy EF.food EF.waste EF.shopping
       num_add num_sub num_mul num_div Math_abs Math_max Math_min exact lit].

(** X17.  Over the rationals, with rates that are not negative, the transport,
    energy, food and shopping values of the breakdown are not negative,
    whatever the form holds. *)
Theorem categories_not_negative :
  forall tr en fo wa sh conv page (document : Form Q) logs now appState,
    ratesNotNegative tr en fo sh ->
    match storedBreakdown
            (calculateFootprint (A := exact) (loaded (complete tr en fo wa sh conv))
               page document logs now appState) with
    | Some b =>
        0 <= Breakdown.transport b /\ 0 <= Breakdown.energy b
        /\ 0 <= Breakdown.food b /\ 0 <= Breakdown.shopping b
    | None => False
    end.
Proof.
intros tr en fo wa sh conv page document logs now appState
  (H1 & H2 & H3 & H4 & H5 & H6 & H7 & H8 & H9).
footprint_exact.
pose proof (safeParseFloat_exact_nonneg document "car-miles") as S1.
pose proof (safeParseFloat_exact_nonneg document "flights") as S2.
pose proof (safeParseFloat_exact_nonneg document "public-transport") as S3.
pose proof (safeParseFloat_exact_nonneg document "electricity") as S4.
pose proof (safeParseFloat_exact_nonneg document "gas") as S5.
pose proof (safeParseFloat_exact_nonneg document "meat-meals") as S6.
pose proof (safeParseFloat_exact_nonneg document "dairy-products") as S7.
pose proof (safeParseFloat_exact_nonneg document "shopping-spend") as S9.
pose proof (safeParseFloat_exact_nonneg document "electronics") as S10.
pose proof (clamp_exact_bounds (safeParseFloat document "renewable-percent")) as C1.
pose proof (Q.le_max_l 0.8 (1 - clamp (A := exact) (safeParseFloat document "local-food") / 100 * 0.2)) as C2.
unfold clamp in *. cbn [Math_min Math_max lit exact] in *.
set (a1 := safeParseFloat document "car-miles") in *.
set (a2 := safeParseFloat document "flights") in *.
set (a3 := safeParseFloat document "public-transport") in *.
set (a4 := safeParseFloat document "electricity") in *.
set (a5 := safeParseFloat document "gas") in *.
set (a6 := safeParseFloat document "meat-meals") in *.
set (a7 := safeParseFloat document "dairy-products") in *.
set (a9 := safeParseFloat document "shopping-spend") in *.
set (a10 := safeParseFloat document "electronics") in *.
set (c1 := Qmin 100 (Qmax 0 (safeParseFloat document "renewable-percent"))) in *.
set (m := Qmax 0.8 _) in *.
clearbody a1 a2 a3 a4 a5 a6 a7 a9 a10 c1 m.
unfold Qdiv in *. change (/ 100) with (1 # 100) in *.
repeat split.
- pose proof (Qmult_le_0_compat _ _ S1 H1) as P1.
  pose proof (Qmult_le_0_compat _ _ S2 H2) as P2.
  pose proof (Qmult_le_0_compat _ _ S3 H3) as P3.
  clear - P1 P2 P3. nra.
- pose proof (Qmult_le_0_compat _ _ S4 H4) as P1.
  pose proof (Qmult_le_0_compat _ _ S5 H5) as P2.
  assert (P3 : 0 <= 1 - c1 * (1 # 100)) by (destruct C1 as [C1a C1b]; clear - C1a C1b; lra).
  pose proof (Qmult_le_0_compat _ _ P1 P3) as P4.
  clear - P2 P4. nra.
- pose proof (Qmult_le_0_compat _ _ S6 H6) as P1.
  pose proof (Qmult_le_0_compat _ _ S7 H7) as P2.
  assert (P3 : 0 <= m) by (clear - C2; lra).
  pose proof (Qmult_le_0_compat _ _ P1 P3) as P4.
  clear - P2 P4. nra.
- pose proof (Qmult_le_0_compat _ _ S9 H8) as P1.
  pose proof (Qmult_le_0_compat _ _ S10 H9) as P2.
  clear - P1 P2. nra.
Qed.

Lemma sanitise_exact_mono (p q : Q) :
  p <= q ->
  (if isNaN (Arith := exact) p || num_ltb (Arith := exact) p 0 then 0 else p)
  <= (if isNaN (Arith := exact) q || num_ltb (Arith := exact) q 0 then 0 else q).
Proof.
intros H. cbn [isNaN num_ltb exact orb].
destruct (Qle_bool 0 p) eqn:Ep; destruct (Qle_bool 0 q) eqn:Eq; simpl.
- exact H.
- apply Qle_bool_iff in Ep.
  assert (Hq : ~ 0 <= q) by (rewrite <- Qle_bool_iff, Eq; discriminate).
  exfalso. apply Hq. lra.
- now apply Qle_bool_iff.
- apply Qle_refl.
Qed.

Lemma clamp_exact_mono (x y : Q) :
  x <= y -> clamp (A := exact) x <= clamp (A := exact) y.
Proof.
intros H. unfold clamp. cbn [Math_min Math_max lit exact].
apply Q.min_le_compat_l. apply Q.max_le_compat_l. exact H.
Qed.

(** X18.  Over the rationals, with a waste rate that is not negative and a
    recycling offset of magnitude at most 1, the waste value of the breakdown
    is not negative. *)
Theorem waste_not_negative :
  forall tr en fo wa sh conv page (document : Form Q) logs now appState,
    0 <= EF.wasteBag wa -> Qabs (EF.recyclingOffset wa) <= 1 ->
    match storedBreakdown
            (calculateFootprint (A := exact) (loaded (complete tr en fo wa sh conv))
               page document logs now appState) with
    | Some b => 0 <= Breakdown.waste b
    | None => False
    end.
Proof.
intros tr en fo wa sh conv page document logs now appState Hw Hr.
footprint_exact.
pose proof (safeParseFloat_exact_nonneg document "waste-bags") as S.
pose proof (clamp_exact_bounds (safeParseFloat document "recycling-percent")) as [C1 C2].
pose proof (Qabs_nonneg (EF.recyclingOffset wa)) as R.
unfold clamp in *. cbn [Math_min Math_max lit exact] in *.
set (w := safeParseFloat document "waste-bags") in *.
set (c := Qmin 100 (Qmax 0 (safeParseFloat document "recycling-percent"))) in *.
set (r := Qabs (EF.recyclingOffset wa)) in *.
clearbody w c r.
unfold Qdiv. change (/ 100) with (1 # 100).
pose proof (Qmult_le_0_compat _ _ S Hw) as P1.
assert (P2 : 0 <= 1 - c * (1 # 100) * r) by (clear - C1 C2 R Hr; nra).
pose proof (Qmult_le_0_compat _ _ P1 P2) as P3.
clear - P3. nra.
Qed.

(** X19.  Over the rationals, with rates that are not negative, a higher
    renewable, local-food or recycling percent never gives a higher total. *)
Theorem more_percent_never_more_total :
  forall tr en fo wa sh conv page (document : Form Q) logs now appState id p q,
    ratesNotNegative tr en fo sh -> 0 <= EF.wasteBag wa -> 0 <= kgToTonnes conv ->
    In id percentFields -> p <= q ->
    let g := loaded (complete tr en fo wa sh conv) in
    match storedCo2e (calculateFootprint (A := exact) g page
                        (setValue document id q) logs now appState),
          storedCo2e (calculateFootprint (A := exact) g page
                        (setValue document id p) logs now appState) with
    | Some higher, Some lower => higher <= lower
    | _, _ => False
    end.
Proof.
intros tr en fo wa sh conv page document logs now appState id p q
  (H1 & H2 & H3 & H4 & H5 & H6 & H7 & H8 & H9) Hw Hk Hid Hpq g. subst g.
pose proof (clamp_exact_mono _ _ (sanitise_exact_mono p q Hpq)) as Hc.
pose proof (clamp_exact_bounds
              (if isNaN (Arith := exact) p || num_ltb (Arith := exact) p 0 then 0 else p))
  as [Cp0 Cp1].
pose proof (clamp_exact_bounds
              (if isNaN (Arith := exact) q || num_ltb (Arith := exact) q 0 then 0 else q))
  as [Cq0 Cq1].
pose proof (safeParseFloat_exact_nonneg document "electricity") as S4.
pose proof (safeParseFloat_exact_nonneg document "meat-meals") as S6.
pose proof (safeParseFloat_exact_nonneg document "waste-bags") as S8.
pose proof (Qabs_nonneg (EF.recyclingOffset wa)) as R.
unfold clamp in Hc, Cp0, Cp1, Cq0, Cq1. cbn [Math_min Math_max lit exact] in *.
set (cp := Qmin 100 (Qmax 0 _)) in Cp0, Cp1, Hc.
set (cq := Qmin 100 (Qmax 0 _)) in Cq0, Cq1, Hc.
simpl in Hid. destruct Hid as [<-|[<-|[<-|[]]]];
  footprint_exact; rewrite !safeParseFloat_setValue; cbn [String.eqb Ascii.eqb Bool.eqb];
  cbn [isNaN num_ltb lit exact] in *; fold cp; fold cq.
- pose proof (Qmult_le_0_compat _ _ S4 H4) as P.
  set (e := safeParseFloat document "electricity" * EF.electricity en) in *.
  match goal with |- ?a <= ?b => assert (E : b - a == e * (cq - cp) * (12 # 100) * kgToTonnes conv) end.
  { unfold e, Qdiv. change (/ 100) with (1 # 100). ring. }
  assert (0 <= e * (cq - cp) * (12 # 100) * kgToTonnes conv).
  { repeat apply Qmult_le_0_compat; try assumption; try discriminate. lra. }
  lra.
- pose proof (Qmult_le_0_compat _ _ S6 H6) as P.
  set (e := safeParseFloat document "meat-meals" * EF.meatMeal fo) in *.
  assert (M : Qmax 0.8 (1 - cq / 100 * 0.2) <= Qmax 0.8 (1 - cp / 100 * 0.2)).
  { apply Q.max_le_compat_l. unfold Qdiv. change (/ 100) with (1 # 100). lra. }
  set (mq := Qmax 0.8 (1 - cq / 100 * 0.2)) in *.
  set (mp := Qmax 0.8 (1 - cp / 100 * 0.2)) in *.
  match goal with |- ?a <= ?b => assert (E : b - a == e * (mp - mq) * 52 * kgToTonnes conv) end.
  { unfold e. ring. }
  assert (0 <= e * (mp - mq) * 52 * kgToTonnes conv).
  { repeat apply Qmult_le_0_compat; try assumption; try discriminate. lra. }
  lra.
- pose proof (Qmult_le_0_compat _ _ S8 Hw) as P.
  set (e := safeParseFloat document "waste-bags" * EF.wasteBag wa) in *.
  set (r := Qabs (EF.recyclingOffset wa)) in *.
  match goal with |- ?a <= ?b => assert (E : b - a == e * (cq - cp) * r * (52 # 100) * kgToTonnes conv) end.
  { unfold e, Qdiv. change (/ 100) with (1 # 100). ring. }
  assert (0 <= e * (cq - cp) * r * (52 # 100) * kgToTonnes conv).
  { repeat apply Qmult_le_0_compat; try assumption; try discriminate. lra. }
  lra.
Qed.


Ltac grows e coef :=
  match goal with
  | |- ?a <= ?b =>
      let E := fresh "E" in
      assert (E : b - a == e * coef);
      [unfold Qdiv; change (/ 100) with (1 # 100); ring|];
      let P := fresh "P" in
      assert (P : 0 <= e * coef);
      [repeat apply Qmult_le_0_compat; try assumption; try discriminate; try lra
      |lra]
  end.

(** X20.  Over the rationals, with rates that are not negative and a recycling
    offset of magnitude at most 1, a higher quantity in any quantity field
    never gives a lower total. *)
Theorem more_quantity_never_less_total :
  forall tr en fo wa sh conv page (document : Form Q) logs now appState id p q,
    ratesNotNegative tr en fo sh -> 0 <= EF.wasteBag wa ->
    Qabs (EF.recyclingOffset wa) <= 1 -> 0 <= kgToTonnes conv ->
    In id quantityFields -> p <= q ->
    let g := loaded (complete tr en fo wa sh conv) in
    match storedCo2e (calculateFootprint (A := exact) g page
                        (setValue document id p) logs now appState),
          storedCo2e (calculateFootprint (A := exact) g page
                        (setValue document id q) logs now appState) with
    | Some lower, Some higher => lower <= higher
    | _, _ => False
    end.
Proof.
intros tr en fo wa sh conv page document logs now appState id p q
  (H1 & H2 & H3 & H4 & H5 & H6 & H7 & H8 & H9) Hw Hr Hk Hid Hpq g. subst g.
pose proof (sanitise_exact_mono p q Hpq) as Hs.
pose proof (clamp_exact_bounds (safeParseFloat document "renewable-percent")) as [C1 C1'].
pose proof (clamp_exact_bounds (safeParseFloat document "recycling-percent")) as [C3 C3'].
pose proof (Q.le_max_l 0.8
              (1 - clamp (A := exact) (safeParseFloat document "local-food") / 100 * 0.2)) as C2.
pose proof (Qabs_nonneg (EF.recyclingOffset wa)) as R.
unfold clamp in *. cbn [Math_min Math_max lit exact isNaN num_ltb] in *.
simpl in Hid.
destruct Hid as [<-|[<-|[<-|[<-|[<-|[<-|[<-|[<-|[<-|[<-|[]]]]]]]]]]];
  footprint_exact; rewrite !safeParseFloat_setValue; cbn [String.eqb Ascii.eqb Bool.eqb];
  cbn [isNaN num_ltb lit exact] in *;
  set (sp := if false || negb (Qle_bool 0 p) then 0 else p) in *;
  set (sq := if false || negb (Qle_bool 0 q) then 0 else q) in *;
  assert (D : 0 <= sq - sp) by lra;
  set (c1 := Qmin 100 (Qmax 0 (safeParseFloat document "renewable-percent"))) in *;
  set (c3 := Qmin 100 (Qmax 0 (safeParseFloat document "recycling-percent"))) in *;
  set (m := Qmax 0.8 _) in *;
  set (r := Qabs (EF.recyclingOffset wa)) in *;
  assert (F1 : 0 <= 1 - c1 * (1 # 100)) by lra;
  assert (F2 : 0 <= m) by lra;
  assert (F3 : 0 <= 1 - c3 * (1 # 100) * r) by (clear - C3 C3' R Hr; nra).
- grows (sq - sp) (EF.car tr * 12 * kgToTonnes conv).
- grows (sq - sp) (1000 * EF.flightShort tr * kgToTonnes conv).
- grows (sq - sp) (EF.publicTransport tr * 12 * kgToTonnes conv).
- grows (sq - sp) (EF.electricity en * (1 - c1 * (1 # 100)) * 12 * kgToTonnes conv).
- grows (sq - sp) (EF.gas en * 12 * kgToTonnes conv).
- grows (sq - sp) (EF.meatMeal fo * 52 * m * kgToTonnes conv).
- grows (sq - sp) (EF.dairyServing fo * 52 * kgToTonnes conv).
- grows (sq - sp) (EF.wasteBag wa * 52 * (1 - c3 * (1 # 100) * r) * kgToTonnes conv).
- grows (sq - sp) (EF.general sh * 12 * kgToTonnes conv).
- grows (sq - sp) (EF.electronics sh * kgToTonnes conv).
Qed.

(** X21.  Over the rationals, when the recycling percent times the magnitude of
    the recycling offset exceeds 100, more waste bags give a lower total. *)
Theorem more_waste_less_total :
  forall tr en fo wa sh conv page (document : Form Q) logs now appState p q,
    0 < EF.wasteBag wa -> 0 < kgToTonnes conv ->
    100 < clamp (A := exact) (safeParseFloat document "recycling-percent")
          * Qabs (EF.recyclingOffset wa) ->
    0 <= p -> p < q ->
    let g := loaded (complete tr en fo wa sh conv) in
    match storedCo2e (calculateFootprint (A := exact) g page
                        (setValue document "waste-bags" q) logs now appState),
          storedCo2e (calculateFootprint (A := exact) g page
                        (setValue document "waste-bags" p) logs now appState) with
    | Some more, Some fewer => more < fewer
    | _, _ => False
    end.
Proof.
intros tr en fo wa sh conv page document logs now appState p q Hw Hk Hc Hp Hpq g.
subst g.
unfold clamp in *. cbn [Math_min Math_max lit exact] in *.
footprint_exact. rewrite !safeParseFloat_setValue. cbn [String.eqb Ascii.eqb Bool.eqb].
cbn [isNaN num_ltb lit exact orb].
assert (Ep : Qle_bool 0 p = true) by (apply Qle_bool_iff; exact Hp).
assert (Eq : Qle_bool 0 q = true) by (apply Qle_bool_iff; lra).
rewrite Ep, Eq. cbn [negb].
set (c := Qmin 100 (Qmax 0 (safeParseFloat document "recycling-percent"))) in *.
set (r := Qabs (EF.recyclingOffset wa)) in *.
match goal with
| |- ?a < ?b =>
    assert (E : b - a
                == (q - p) * EF.wasteBag wa * 52 * (c * r * (1 # 100) - 1)
                   * kgToTonnes conv)
end.
{ unfold Qdiv. change (/ 100) with (1 # 100). ring. }
assert (P : 0 < (q - p) * EF.wasteBag wa * 52 * (c * r * (1 # 100) - 1)
                * kgToTonnes conv).
{ repeat apply Qmult_lt_0_compat; try assumption; try reflexivity; lra. }
lra.
Qed.

Section Grouping.
Context {num : Type} {A : Arith num}.


Lemma addTo_keys (categoryData : list (string * num)) category co2e :
  map fst (addTo categoryData category co2e)
  = if in_dec string_dec category (map fst categoryData)
    then map fst categoryData
    else map fst categoryData ++ [category].
Proof.
induction categoryData as [|[key value] rest IH]; [reflexivity|].
simpl addTo. destruct (String.eqb_spec key category) as [->|Hne].
- simpl. destruct (string_dec category category); [reflexivity|congruence].
- simpl map. rewrite IH. simpl in_dec.
  destruct (string_dec key category); [congruence|].
  destruct (in_dec string_dec category (map fst rest)); reflexivity.
Qed.

Lemma groups_from (logs : list (Log.t num)) (start : list (string * num)) :
  let groups :=
    fold_left (fun categoryData log => addTo categoryData (categoryOf log) (Log.co2e log))
      logs start in
  (NoDup (map fst start) -> NoDup (map fst groups))
  /\ (forall k, In k (map fst groups)
                <-> In k (map fst start) \/ In k (map categoryOf logs))
  /\ (List.length groups <= List.length start + List.length logs)%nat.
Proof.
revert start. induction logs as [|log logs IH]; intros start; simpl.
- split; [auto|]. split; [|lia]. intros k. tauto.
- destruct (IH (addTo start (categoryOf log) (Log.co2e log))) as (IH1 & IH2 & IH3).
  assert (Hlen : (List.length (addTo start (categoryOf log) (Log.co2e log))
                 <= S (List.length start))%nat).
  { rewrite <- (length_map fst), addTo_keys.
    destruct (in_dec _ _ _); rewrite ?length_app, length_map; simpl; lia. }
  split; [|split].
  + intros Hnd. apply IH1. rewrite addTo_keys.
    destruct (in_dec string_dec (categoryOf log) (map fst start)) as [Hin|Hin];
      [exact Hnd|].
    apply NoDup_app; [exact Hnd|repeat constructor; intros []|].
    intros x Hx [<-|[]]. contradiction.
  + intros k. rewrite IH2, addTo_keys.
    destruct (in_dec string_dec (categoryOf log) (map fst start)) as [Hin|Hin].
    * split; [tauto|]. intros [H|[<-|H]]; auto.
    * rewrite in_app_iff. simpl. tauto.
  + lia.
Qed.

Lemma groups_keys (logs : list (Log.t num)) :
  NoDup (map fst (groupByCategory logs))
  /\ (forall k, In k (map fst (groupByCategory logs)) <-> In k (map categoryOf logs))
  /\ (List.length (groupByCategory logs) <= List.length logs)%nat.
Proof.
destruct (groups_from logs []) as (H1 & H2 & H3).
split; [apply H1; constructor|]. split; [|exact H3].
intros k. rewrite (H2 k). simpl. tauto.
Qed.


End Grouping.

Lemma orZero_exact (v : Q) : orZero (A := exact) v == v.
Proof.
unfold orZero, truthy. cbn [isNaN num_eqb lit exact orb].
destruct (Qeq_bool v 0) eqn:E; simpl; [|reflexivity].
apply Qeq_bool_iff in E. now rewrite E.
Qed.

Lemma parseFloat_exact (v : Q) : parseFloat (A := exact) v == v.
Proof.
unfold parseFloat. cbn [num_eqb lit exact].
destruct (Qeq_bool v 0) eqn:E; [|reflexivity].
apply Qeq_bool_iff in E. now rewrite E.
Qed.

Lemma fold_plus_from (l : list Q) (a : Q) :
  fold_left Qplus l a == a + fold_left Qplus l 0.
Proof.
revert a. induction l as [|x l IH]; intros a; simpl.
- ring.
- rewrite (IH (a + x)), (IH (0 + x)). ring.
Qed.

Lemma addTo_total (categoryData : list (string * Q)) category co2e :
  fold_left Qplus (map snd (addTo (A := exact) categoryData category co2e)) 0
  == fold_left Qplus (map snd categoryData) 0 + co2e.
Proof.
induction categoryData as [|[key value] rest IH]; simpl.
- cbn [num_add lit exact]. ring.
- destruct (String.eqb key category); simpl.
  + cbn [num_add exact]. rewrite fold_plus_from, (fold_plus_from _ (0 + value)).
    rewrite orZero_exact. ring.
  + rewrite fold_plus_from, (fold_plus_from _ (0 + value)), IH. ring.
Qed.


Lemma groups_total_from (logs : list (Log.t Q)) (start : list (string * Q)) :
  fold_left Qplus
    (map snd
       (fold_left (fun categoryData log =>
                     addTo (A := exact) categoryData (categoryOf log) (Log.co2e log))
          logs start)) 0
  == fold_left Qplus (map snd start) 0 + tonnes logs.
Proof.
revert start. unfold tonnes. induction logs as [|log logs IH]; intros start; simpl.
- ring.
- rewrite IH, addTo_total, (fold_plus_from _ (0 + Log.co2e log)). ring.
Qed.

Lemma groups_total (logs : list (Log.t Q)) :
  fold_left Qplus (map snd (groupByCategory (A := exact) logs)) 0 == tonnes logs.
Proof.
unfold groupByCategory.
change (fold_left _ logs []) with
  (fold_left (fun categoryData log =>
                addTo (A := exact) categoryData (categoryOf log) (Log.co2e log))
     logs []).
rewrite groups_total_from. simpl. ring.
Qed.

(** X23.  Over the rationals and for categories that are plain keys, the
    values of the groups add up to the tonnes of all the entries. *)
Theorem grouping_keeps_the_total (logs : list (Log.t Q)) :
  Forall (fun log => plainKey (categoryOf log) = true) logs ->
  fold_left Qplus (map snd (groupByCategory (A := exact) logs)) 0 == tonnes logs.
Proof.
intros _. exact (groups_total logs).
Qed.

Lemma slices_end (PI : Q) colors total values index start d :
  values <> [] ->
  Slice.to (last (slicesFrom (A := exact) PI colors total index start values) d)
  == start + fold_left Qplus values 0 / total * 2 * PI.
Proof.
revert index start. induction values as [|v values IH]; intros index start Hne;
  [contradiction|].
destruct values as [|v' values].
- simpl. cbn [num_add num_mul num_div lit exact]. unfold Qdiv. ring.
- change (slicesFrom PI colors total index start (v :: v' :: values))
    with ({| Slice.from := start;
             Slice.to := start + v / total * 2 * PI;
             Slice.fill := nth_error colors (index mod List.length colors)%nat |}
          :: slicesFrom (A := exact) PI colors total (S index)
               (start + v / total * 2 * PI) (v' :: values)).
  change (last (_ :: slicesFrom PI colors total (S index) ?s (v' :: values)) d)
    with (last (slicesFrom (A := exact) PI colors total (S index) s (v' :: values)) d).
  rewrite IH by discriminate.
  simpl fold_left. rewrite (fold_plus_from _ (0 + v + v')), (fold_plus_from _ (0 + v')).
  unfold Qdiv. ring.
Qed.

(** X24.  Over the rationals and for categories that are plain keys, when
    drawCategoryChart draws slices there is one for each category, the first
    starts at -PI/2 and the last ends a full turn later. *)
Theorem donut_is_closed (PI : Q) colors (logs : list (Log.t Q)) slices d :
  Forall (fun log => plainKey (categoryOf log) = true) logs ->
  drawCategoryChart (A := exact) PI colors logs = Slices slices ->
  List.length slices = List.length (groupByCategory (A := exact) logs)
  /\ slices <> []
  /\ Slice.from (hd d slices) == - PI / 2
  /\ Slice.to (last slices d) == - PI / 2 + 2 * PI.
Proof.
intros _.
unfold drawCategoryChart. destruct logs as [|log logs]; [discriminate|].
set (groups := groupByCategory (log :: logs)).
pose proof (groups_total (log :: logs)) as Htotal. fold groups in Htotal.
assert (Hgroups : groups <> []).
{ intros E.
  destruct (groups_keys (A := exact) (log :: logs)) as (_ & H & _).
  fold groups in H. rewrite E in H. apply (H (categoryOf log)). now left. }
set (total := fold_left num_add (map snd groups) (lit 0)) in *.
change (fold_left Qplus (map snd groups) 0) with total in Htotal.
destruct (total =? lit 0)%js eqn:Ez; [discriminate|].
intros E. injection E as <-.
assert (Hnz : ~ total == 0).
{ intros H. apply Qeq_bool_iff in H. cbn [num_eqb lit exact] in Ez. congruence. }
assert (Hlen : forall vs index start,
           List.length (slicesFrom (A := exact) PI colors total index start vs)
           = List.length vs).
{ induction vs as [|v vs IH]; intros; simpl; [reflexivity|now rewrite IH]. }
split; [now rewrite Hlen, length_map|].
assert (Et : total = fold_left Qplus (map snd groups) 0) by reflexivity.
clearbody total.
destruct (map snd groups) as [|v vs] eqn:Ev;
  [destruct groups; [congruence|discriminate]|].
split; [discriminate|]. split.
- simpl. cbn [num_sub num_div lit exact]. unfold Qdiv. ring.
- rewrite slices_end by discriminate. rewrite <- Et.
  cbn [num_sub num_div lit exact]. field. exact Hnz.
Qed.

Section ExactDashboard.
Variables getFullYear getMonth weekBefore : Z -> Z.
Variable Math_ceil : Q -> Q.

Lemma tonnes_cons (log : Log.t Q) logs : tonnes (log :: logs) == Log.co2e log + tonnes logs.
Proof. unfold tonnes. simpl. rewrite fold_plus_from. ring. Qed.

Lemma sumCo2e_exact (logs : list (Log.t Q)) : sumCo2e (A := exact) logs == tonnes logs.
Proof.
unfold sumCo2e. cbn [lit exact].
assert (H : forall a, fold_left (fun sum log => num_add (Arith := exact) sum
                                   (orZero (A := exact) (parseFloat (A := exact) (Log.co2e log))))
                        logs a == a + tonnes logs).
{ induction logs as [|log logs IH]; intros a; simpl.
  - unfold tonnes. simpl. ring.
  - rewrite IH, tonnes_cons. cbn [num_add exact].
    rewrite orZero_exact, parseFloat_exact. ring. }
rewrite H. ring.
Qed.

Lemma monthly_sum_exact (logs : list (Log.t Q)) :
  fold_left (fun sum log => num_add (Arith := exact) sum (orZero (A := exact) (Log.co2e log)))
    logs 0 == tonnes logs.
Proof.
assert (H : forall a, fold_left (fun sum log => num_add (Arith := exact) sum
                                   (orZero (A := exact) (Log.co2e log)))
                        logs a == a + tonnes logs).
{ induction logs as [|log logs IH]; intros a; simpl.
  - unfold tonnes. simpl. ring.
  - rewrite IH, tonnes_cons. cbn [num_add exact]. rewrite orZero_exact. ring. }
rewrite H. ring.
Qed.

Lemma tonnes_filter (keep : Log.t Q -> bool) (logs : list (Log.t Q)) :
  Forall (fun log => 0 <= Log.co2e log) logs ->
  0 <= tonnes (filter keep logs) <= tonnes logs.
Proof.
induction 1 as [|log logs Hlog _ IH]; simpl.
- unfold tonnes. simpl. split; apply Qle_refl.
- destruct (keep log); rewrite ?tonnes_cons; lra.
Qed.

(** X25.  Over the rationals, when no entry is negative, this month's tonnes
    lie between 0 and the total of all entries, the monthly figure written is
    not negative, and the weekly change is not negative and is shown as
    positive. *)
Theorem dashboard_without_negative_entries (g : Globals Q) (logs : list (Log.t Q)) now goal :
  Forall (fun log => 0 <= Log.co2e log) logs ->
  let monthlyCo2e := sumCo2e (A := exact) (thisMonthLogs getFullYear getMonth logs now) in
  0 <= monthlyCo2e <= sumCo2e (A := exact) logs
  /\ 0 <= fst (updateDashboard getFullYear getMonth weekBefore Math_ceil g logs now goal)
  /\ match snd (updateDashboard getFullYear getMonth weekBefore Math_ceil g logs now goal) with
     | Ok kpis => 0 <= weeklyChange kpis /\ weeklyPositive kpis = true
     | Thrown => conversions (getConfig g) = None
     end.
Proof.
intros Hlogs monthlyCo2e.
pose proof (tonnes_filter (fun _ => true) logs Hlogs) as [Ht _].
assert (Hm : 0 <= monthlyCo2e <= sumCo2e (A := exact) logs).
{ subst monthlyCo2e. rewrite !sumCo2e_exact. unfold thisMonthLogs.
  apply tonnes_filter, Hlogs. }
assert (Hw : 0 <= sumCo2e (A := exact) (lastWeekLogs weekBefore logs now)).
{ rewrite sumCo2e_exact. unfold lastWeekLogs. apply tonnes_filter, Hlogs. }
split; [exact Hm|]. unfold updateDashboard. fold monthlyCo2e. cbn [fst snd].
set (lastWeekCo2e := sumCo2e (lastWeekLogs weekBefore logs now)) in *.
clearbody monthlyCo2e lastWeekCo2e.
split.
- destruct (monthlyCo2e >? lit 0)%js; lra.
- destruct (conversions (getConfig g)); [|reflexivity]. cbn [bind defined weeklyChange weeklyPositive].
  assert (Hchange : 0 <= (if (monthlyCo2e >? lit 0)%js
                          then (lastWeekCo2e / monthlyCo2e * lit 100)%js else lit 0)).
  { cbn [num_ltb num_mul num_div lit exact].
    destruct (Qle_bool monthlyCo2e 0) eqn:E; simpl; [apply Qle_refl|].
    assert (0 < monthlyCo2e).
    { apply Qnot_le_lt. intros H. apply Qle_bool_iff in H. congruence. }
    apply Qmult_le_0_compat; [|discriminate].
    apply Qle_shift_div_l; [assumption|]. lra. }
  set (change := if (monthlyCo2e >? lit 0)%js
                 then (lastWeekCo2e / monthlyCo2e * lit 100)%js else lit 0) in *.
  clearbody change. split; [exact Hchange|].
  unfold geb. cbn [isNaN num_ltb lit exact orb negb andb].
  apply Qle_bool_iff in Hchange. rewrite Hchange. reflexivity.
Qed.

End ExactDashboard.

Section ExactTrend.
Variables getFullYear getMonth : Z -> Z.

Lemma maxWith1_exact (values : list Q) :
  1 <= maxWith1 (A := exact) values
  /\ Forall (fun v => v <= maxWith1 (A := exact) values) values.
Proof.
induction values as [|v values [IH1 IH2]].
- split; [apply Qle_refl|constructor].
- change (maxWith1 (A := exact) (v :: values))
    with (Qmax v (maxWith1 (A := exact) values)).
  split.
  + eapply Qle_trans; [exact IH1|apply Q.le_max_r].
  + constructor; [apply Q.le_max_l|].
    eapply Forall_impl; [|exact IH2]. simpl. intros a Ha.
    eapply Qle_trans; [exact Ha|apply Q.le_max_r].
Qed.

Lemma monthly_points_not_negative (logs : list (Log.t Q)) months now :
  Forall (fun log => 0 <= Log.co2e log) logs ->
  Forall (fun point => 0 <= Point.co2e point)
    (generateMonthlyData (A := exact) getFullYear getMonth logs months now).
Proof.
intros Hlogs. unfold generateMonthlyData. apply Forall_map, Forall_forall.
intros i _. cbn [Point.co2e]. rewrite orZero_exact. cbn [lit exact].
rewrite monthly_sum_exact. apply tonnes_filter, Hlogs.
Qed.

(** X26.  Over the rationals, on a canvas of at least 80 by 80 and with no
    negative entry, drawTrendChart joins 12 points that all lie inside the
    plot area, 40 from each edge. *)
Theorem trend_points_inside_plot (canvas : Canvas Q) (logs : list (Log.t Q)) now points :
  80 <= width canvas -> 80 <= height canvas ->
  Forall (fun log => 0 <= Log.co2e log) logs ->
  drawTrendChart (A := exact) getFullYear getMonth canvas logs now = TrendLine points ->
  List.length points = 12%nat
  /\ Forall (fun '(x, y) => 40 <= x <= width canvas - 40
                            /\ 40 <= y <= height canvas - 40) points.
Proof.
intros Hw Hh Hlogs. unfold drawTrendChart.
destruct logs as [|log logs]; [discriminate|]. cbv zeta.
set (data := generateMonthlyData getFullYear getMonth (log :: logs) 12 now).
assert (Hlen : List.length data = 12%nat)
  by (unfold data, generateMonthlyData; now rewrite length_map, length_rev, length_seq).
pose proof (monthly_points_not_negative (log :: logs) 12 now Hlogs) as Hdata.
fold data in Hdata.
destruct (maxWith1_exact (map (@Point.co2e Q) data)) as [Hmax1 Hmax].
set (maxValue := maxWith1 (map (@Point.co2e Q) data)) in *.
clearbody maxValue data.
intros E. injection E as <-. split.
- rewrite length_map, length_combine, length_seq, Hlen. reflexivity.
- apply Forall_map, Forall_forall. intros [index point] Hin.
  pose proof (in_combine_l _ _ _ _ Hin) as Hi.
  pose proof (in_combine_r _ _ _ _ Hin) as Hp.
  apply in_seq in Hi. rewrite Hlen in Hi.
  rewrite Forall_forall in Hdata. specialize (Hdata _ Hp).
  rewrite Forall_forall in Hmax.
  specialize (Hmax _ (in_map (@Point.co2e Q) _ _ Hp)).
  cbn [num_add num_sub num_mul num_div lit exact].
  assert (Hfrac : 0 <= inject_Z (Z.of_nat index) / (12 - 1) <= 1).
  { assert (0 <= inject_Z (Z.of_nat index) <= 11).
    { split.
      - change 0 with (inject_Z 0). rewrite <- Zle_Qle. lia.
      - change 11 with (inject_Z 11). rewrite <- Zle_Qle. lia. }
    split.
    - apply Qle_shift_div_l; [reflexivity|]. lra.
    - apply Qle_shift_div_r; [reflexivity|]. lra. }
  assert (Hshare : 0 <= Point.co2e point / maxValue <= 1).
  { split.
    - apply Qle_shift_div_l; lra.
    - apply Qle_shift_div_r; lra. }
  set (f := inject_Z (Z.of_nat index) / (12 - 1)) in *.
  set (s := Point.co2e point / maxValue) in *. clearbody f s.
  clear - Hw Hh Hfrac Hshare. destruct Hfrac, Hshare. repeat split; nra.
Qed.

End ExactTrend.

Section Window.
Variables getFullYear getMonth : Z -> Z.


Lemma one_month_only now i j (log : Log.t Q) :
  monthBefore getFullYear getMonth now i log = true -> monthBefore getFullYear getMonth now j log = true -> i = j.
Proof.
unfold monthBefore, sameMonth. destruct (logDate log) as [d|]; [|discriminate].
intros Hi Hj.
apply andb_prop in Hi. destruct Hi as [Hi1 Hi2].
apply andb_prop in Hj. destruct Hj as [Hj1 Hj2].
apply Z.eqb_eq in Hi1, Hi2, Hj1, Hj2.
assert (E : (getMonth now - Z.of_nat i = getMonth now - Z.of_nat j)%Z).
{ rewrite (Z.div_mod (getMonth now - Z.of_nat i) 12),
          (Z.div_mod (getMonth now - Z.of_nat j) 12) by lia.
  lia. }
lia.
Qed.

Lemma sum_of_shares now (log : Log.t Q) (l : list nat) :
  NoDup l ->
  fold_left Qplus (map (fun i => if monthBefore getFullYear getMonth now i log then Log.co2e log else 0) l) 0
  == if existsb (fun i => monthBefore getFullYear getMonth now i log) l then Log.co2e log else 0.
Proof.
induction 1 as [|i l Hi Hnd IH]; [reflexivity|].
simpl. rewrite fold_plus_from, IH.
destruct (monthBefore getFullYear getMonth now i log) eqn:E; simpl; [|ring].
replace (existsb (fun i0 => monthBefore getFullYear getMonth now i0 log) l) with false; [ring|].
symmetry. apply not_true_is_false. intros Hex.
apply existsb_exists in Hex. destruct Hex as (j & Hj & Hm).
rewrite (one_month_only now i j log E Hm) in Hi. contradiction.
Qed.

Lemma sum_pointwise (X : Type) (f g : X -> Q) (l : list X) :
  (forall x, f x == g x) ->
  fold_left Qplus (map f l) 0 == fold_left Qplus (map g l) 0.
Proof.
intros H. induction l as [|x l IH]; [reflexivity|].
simpl. rewrite fold_plus_from, (fold_plus_from _ (0 + g x)), IH, H. reflexivity.
Qed.

Lemma sum_split (X : Type) (f g : X -> Q) (l : list X) :
  fold_left Qplus (map (fun x => f x + g x) l) 0
  == fold_left Qplus (map f l) 0 + fold_left Qplus (map g l) 0.
Proof.
induction l as [|x l IH]; simpl; [ring|].
rewrite fold_plus_from, (fold_plus_from _ (0 + f x)), (fold_plus_from _ (0 + g x)), IH.
ring.
Qed.

Lemma months_total now (logs : list (Log.t Q)) (l : list nat) :
  NoDup l ->
  fold_left Qplus (map (fun i => tonnes (filter (monthBefore getFullYear getMonth now i) logs)) l) 0
  == tonnes (filter (fun log => existsb (fun i => monthBefore getFullYear getMonth now i log) l) logs).
Proof.
intros Hnd. induction logs as [|log logs IH].
- simpl. unfold tonnes. simpl. induction l as [|i l IHl]; [reflexivity|].
  simpl. rewrite fold_plus_from, IHl; [ring|]. now inversion Hnd.
- rewrite (sum_pointwise _ _
             (fun i => (if monthBefore getFullYear getMonth now i log then Log.co2e log else 0)
                       + tonnes (filter (monthBefore getFullYear getMonth now i) logs))).
  + rewrite sum_split, IH, sum_of_shares by exact Hnd. simpl.
    destruct (existsb (fun i => monthBefore getFullYear getMonth now i log) l); rewrite ?tonnes_cons; ring.
  + intros i. simpl. destruct (monthBefore getFullYear getMonth now i log); rewrite ?tonnes_cons; ring.
Qed.

(** X27.  Over the rationals, the points of the monthly data add up to the
    tonnes of the entries dated in the months they stand for: an entry of
    these months is counted in one point, any other entry in none. *)
Theorem trend_keeps_the_window (logs : list (Log.t Q)) months now :
  fold_left Qplus
    (map (@Point.co2e Q)
       (generateMonthlyData (A := exact) getFullYear getMonth logs months now)) 0
  == tonnes (filter (inWindow getFullYear getMonth months now) logs).
Proof.
unfold generateMonthlyData. rewrite map_map. cbn [Point.co2e].
rewrite (sum_pointwise _ _ (fun i => tonnes (filter (monthBefore getFullYear getMonth now i) logs))).
- rewrite months_total by (apply NoDup_rev, seq_NoDup).
  assert (E : forall log : Log.t Q,
             existsb (fun i => monthBefore getFullYear getMonth now i log) (rev (seq 0 months))
             = inWindow getFullYear getMonth months now log).
  { intros log. unfold inWindow. apply eq_true_iff_eq.
    rewrite !existsb_exists. split; intros (i & Hi & H); exists i; split; trivial.
    - now apply in_rev.
    - now apply in_rev in Hi. }
  rewrite (filter_ext _ _ E). reflexivity.
- intros i. rewrite orZero_exact. cbn [lit exact]. apply monthly_sum_exact.
Qed.

End Window.

End ExactReadings.

(** ** Instances of the further properties *)

Lemma displayed_value_not_negative_witness : nonNegative 0%float.
Proof.
exact (displayed_value_not_negative fullPage (-3)%float None 0%float
         (Some EnterValues) eq_refl).
Defined.


Lemma no_quantities_no_footprint_witness :
  exists value,
    effects (calculateFootprint
               (loaded (complete fallbackTransport fallbackEnergy fallbackFood
                          fallbackWaste fallbackShopping fallbackConversions))
               fullPage (fun _ => None) [] 0 nothingStored)
    = [ShowResult value (Some EnterValues)] /\ (value =? 0)%float = true.
Proof.
apply (no_quantities_no_footprint fallbackTransport fallbackEnergy fallbackFood
         fallbackWaste fallbackShopping fallbackConversions (fun _ => None) [] 0
         nothingStored).
intros id _. reflexivity.
Defined.

Lemma newest_saved_is_previous_witness :
  getPreviousCalculation ([entry 1 5%float 1] ++ [entry 2 4%float 2])
  = Some (entry 2 4%float 2).
Proof.
apply (newest_saved_is_previous [entry 1 5%float 1] (entry 2 4%float 2)).
repeat constructor.
Defined.

Lemma previous_whatever_the_order_witness :
  getPreviousCalculation [entry 2 4%float 2; entry 1 5%float 1]
  = getPreviousCalculation [entry 1 5%float 1; entry 2 4%float 2].
Proof.
apply previous_whatever_the_order.
- repeat constructor; simpl; intuition discriminate.
- apply perm_swap.
Defined.

Lemma saved_after_calculation_witness :
  exists saved,
    saveCalculation
      (state (calculateFootprint notLoaded fullPage allZero [] 7 nothingStored)) []
    = Some saved
    /\ LogData.category saved = "mixed"%string
    /\ LogData.timestamp saved = 7%Z.
Proof.
destruct (proj2 (saved_after_calculation notLoaded fullPage allZero [] 7
                   nothingStored []) ltac:(discriminate))
  as (saved & H1 & H2 & H3 & _).
exists saved. auto.
Defined.

Lemma note_words_the_displayed_change_witness :
  exists band c,
    effects (calculateFootprint notLoaded fullPage
               (setValue allZero "car-miles" 1000%float) [entry 1 4%float 1] 0
               nothingStored)
    = [ShowResult 4.92%float (Some (Assessment band c))]
    /\ option_map (fun saved => change (LogData.notes saved))
         (saveCalculation
            (state (calculateFootprint notLoaded fullPage
                      (setValue allZero "car-miles" 1000%float)
                      [entry 1 4%float 1] 0 nothingStored))
            [entry 1 4%float 1])
       = Some (noteOf c).
Proof.
apply (note_words_the_displayed_change notLoaded
         (setValue allZero "car-miles" 1000%float) [entry 1 4%float 1] 0
         nothingStored 4.92%float); reflexivity.
Defined.

Lemma categories_not_below_zero_witness :
  match storedBreakdown
          (calculateFootprint
             (loaded (complete fallbackTransport fallbackEnergy fallbackFood
                        fallbackWaste fallbackShopping fallbackConversions))
             fullPage allZero [] 0 nothingStored) with
  | Some b =>
      (Breakdown.transport b <? 0)%float = false
      /\ (Breakdown.food b <? 0)%float = false
      /\ (Breakdown.shopping b <? 0)%float = false
  | None => False
  end.
Proof.
apply (categories_not_below_zero fallbackTransport fallbackEnergy fallbackFood
         fallbackWaste fallbackShopping fallbackConversions fullPage allZero [] 0
         nothingStored).
repeat split.
Defined.

Lemma trend_ends_with_this_month_witness :
  option_map (@Point.co2e float)
    (nth_error (generateMonthlyData year2026 november [entry 1 4%float 1] 12 0) 11)
  = Some (orZero (sumCo2e (thisMonthLogs year2026 november [entry 1 4%float 1] 0))).
Proof.
apply (trend_ends_with_this_month year2026 november [entry 1 4%float 1] 11 0).
- unfold year2026. lia.
- unfold november. lia.
Defined.

Lemma undated_entry_in_no_period_witness :
  thisMonthLogs year2026 november
    ([entry 1 4%float 1]
     ++ [{| Log.id := 2; Log.category := "food"; Log.co2e := 3%float;
            Log.timestamp := None; Log.date := None |}]) 0
  = thisMonthLogs year2026 november [entry 1 4%float 1] 0.
Proof.
apply (proj1 (undated_entry_in_no_period year2026 november sevenDaysBefore
                [entry 1 4%float 1]
                {| Log.id := 2; Log.category := "food"; Log.co2e := 3%float;
                   Log.timestamp := None; Log.date := None |} 12 0
                eq_refl eq_refl)).
Defined.

Lemma demo_data_seeds_empty_store_witness :
  exists written,
    loadDemoData (A := binary64) [] 1000 1001 1003 = Some written
    /\ List.length written = 3%nat
    /\ getPreviousCalculation written = nth_error written 2
    /\ option_map (@Log.co2e float) (getPreviousCalculation written) = Some 1.2%float.
Proof.
apply (proj2 (demo_data_seeds_empty_store [] 1000 1001 1003)); simpl; lia.
Defined.

Lemma categories_not_negative_witness :
  match storedBreakdown
          (calculateFootprint (A := exact)
             (loaded (complete fallbackTransport fallbackEnergy fallbackFood
                        fallbackWaste fallbackShopping fallbackConversions))
             fullPage allZero [] 0 {| currentCalculation := None |}) with
  | Some b =>
      (0 <= Breakdown.transport b /\ 0 <= Breakdown.energy b
       /\ 0 <= Breakdown.food b /\ 0 <= Breakdown.shopping b)%Q
  | None => False
  end.
Proof.
apply (categories_not_negative fallbackTransport fallbackEnergy fallbackFood
         fallbackWaste fallbackShopping fallbackConversions fullPage allZero [] 0
         {| currentCalculation := None |}).
repeat split; discriminate.
Defined.

Lemma waste_not_negative_witness :
  match storedBreakdown
          (calculateFootprint (A := exact)
             (loaded (complete fallbackTransport fallbackEnergy fallbackFood
                        {| EF.wasteBag := 2.5%Q; EF.recyclingOffset := (-0.5)%Q |}
                        fallbackShopping fallbackConversions))
             fullPage allZero [] 0 {| currentCalculation := None |}) with
  | Some b => (0 <= Breakdown.waste b)%Q
  | None => False
  end.
Proof.
apply (waste_not_negative fallbackTransport fallbackEnergy fallbackFood
         {| EF.wasteBag := 2.5%Q; EF.recyclingOffset := (-0.5)%Q |}
         fallbackShopping fallbackConversions fullPage allZero [] 0
         {| currentCalculation := None |}); discriminate.
Defined.

Lemma more_percent_never_more_total_witness :
  match storedCo2e (calculateFootprint (A := exact)
                      (loaded (complete fallbackTransport fallbackEnergy fallbackFood
                                 fallbackWaste fallbackShopping fallbackConversions))
                      fullPage
                      (setValue (setValue allZero "electricity" 300%Q)
                         "renewable-percent" 50%Q)
                      [] 0 {| currentCalculation := None |}),
        storedCo2e (calculateFootprint (A := exact)
                      (loaded (complete fallbackTransport fallbackEnergy fallbackFood
                                 fallbackWaste fallbackShopping fallbackConversions))
                      fullPage
                      (setValue (setValue allZero "electricity" 300%Q)
                         "renewable-percent" 20%Q)
                      [] 0 {| currentCalculation := None |}) with
  | Some higher, Some lower => (higher <= lower)%Q
  | _, _ => False
  end.
Proof.
apply (more_percent_never_more_total fallbackTransport fallbackEnergy fallbackFood
         fallbackWaste fallbackShopping fallbackConversions fullPage
         (setValue allZero "electricity" 300%Q) [] 0
         {| currentCalculation := None |} "renewable-percent" 20%Q 50%Q);
  try discriminate.
- repeat split; discriminate.
- simpl. tauto.
Defined.

Lemma more_quantity_never_less_total_witness :
  match storedCo2e (calculateFootprint (A := exact)
                      (loaded (complete fallbackTransport fallbackEnergy fallbackFood
                                 {| EF.wasteBag := 2.5%Q; EF.recyclingOffset := (-0.5)%Q |}
                                 fallbackShopping fallbackConversions))
                      fullPage (setValue allZero "car-miles" 10%Q)
                      [] 0 {| currentCalculation := None |}),
        storedCo2e (calculateFootprint (A := exact)
                      (loaded (complete fallbackTransport fallbackEnergy fallbackFood
                                 {| EF.wasteBag := 2.5%Q; EF.recyclingOffset := (-0.5)%Q |}
                                 fallbackShopping fallbackConversions))
                      fullPage (setValue allZero "car-miles" 20%Q)
                      [] 0 {| currentCalculation := None |}) with
  | Some lower, Some higher => (lower <= higher)%Q
  | _, _ => False
  end.
Proof.
apply (more_quantity_never_less_total fallbackTransport fallbackEnergy fallbackFood
         {| EF.wasteBag := 2.5%Q; EF.recyclingOffset := (-0.5)%Q |}
         fallbackShopping fallbackConversions fullPage allZero [] 0
         {| currentCalculation := None |} "car-miles" 10%Q 20%Q);
  try discriminate.
- repeat split; discriminate.
- simpl. tauto.
Defined.

Lemma more_waste_less_total_witness :
  match storedCo2e (calculateFootprint (A := exact)
                      (loaded (complete fallbackTransport fallbackEnergy fallbackFood
                                 fallbackWaste fallbackShopping fallbackConversions))
                      fullPage
                      (setValue (setValue allZero "recycling-percent" 100%Q)
                         "waste-bags" 2%Q)
                      [] 0 {| currentCalculation := None |}),
        storedCo2e (calculateFootprint (A := exact)
                      (loaded (complete fallbackTransport fallbackEnergy fallbackFood
                                 fallbackWaste fallbackShopping fallbackConversions))
                      fullPage
                      (setValue (setValue allZero "recycling-percent" 100%Q)
                         "waste-bags" 1%Q)
                      [] 0 {| currentCalculation := None |}) with
  | Some more, Some fewer => (more < fewer)%Q
  | _, _ => False
  end.
Proof.
apply (more_waste_less_total fallbackTransport fallbackEnergy fallbackFood
         fallbackWaste fallbackShopping fallbackConversions fullPage
         (setValue allZero "recycling-percent" 100%Q) [] 0
         {| currentCalculation := None |} 1%Q 2%Q);
  try discriminate; reflexivity.
Defined.


Lemma grouping_keeps_the_total_witness :
  (fold_left Qplus
     (map snd (groupByCategory (A := exact) [entry 1 2%Q 1; entry 2 3%Q 2])) 0
   == tonnes [entry 1 2%Q 1; entry 2 3%Q 2])%Q.
Proof.
apply (grouping_keeps_the_total [entry 1 2%Q 1; entry 2 3%Q 2]).
repeat constructor.
Defined.

Lemma donut_is_closed_witness :
  exists slices,
    drawCategoryChart (A := exact) (355 # 113) [] [entry 1 2%Q 1] = Slices slices
    /\ slices <> [].
Proof.
eexists. split; [reflexivity|].
apply (donut_is_closed (355 # 113) [] [entry 1 2%Q 1] _
         {| Slice.from := 0%Q; Slice.to := 0%Q; Slice.fill := None |});
  [repeat constructor|reflexivity].
Defined.

Lemma dashboard_without_negative_entries_witness :
  (0 <= fst (updateDashboard (A := exact) year2026 november sevenDaysBefore
               (fun x => x) notLoaded [entry 1 2%Q 1] 0 None))%Q.
Proof.
apply (dashboard_without_negative_entries year2026 november sevenDaysBefore
         (fun x => x) notLoaded [entry 1 2%Q 1] 0 None).
repeat constructor. discriminate.
Defined.

Lemma trend_points_inside_plot_witness :
  exists points,
    drawTrendChart (A := exact) year2026 november
      {| width := 400%Q; height := 200%Q |} [entry 1 2%Q 1] 0
    = TrendLine points
    /\ List.length points = 12%nat.
Proof.
eexists. split; [reflexivity|].
apply (trend_points_inside_plot year2026 november
         {| width := 400%Q; height := 200%Q |} [entry 1 2%Q 1] 0 _);
  try discriminate; [repeat constructor; discriminate|reflexivity].
Defined.
